(** * Netflix analytics dashboard (app.py): loader, filter pipeline, top genre

    A shallow embedding of the data pipeline of [app.py]:
    - [load_data] (lines 41-90): the derived columns of the loaded table;
    - the sidebar time base (lines 101-109) and the base subset (117-123);
    - the filter application (lines 153-175);
    - the "Top Genre" metric (lines 196-202).

    Text is modelled over the 256 code points 0..255 (a [string] is a
    sequence of such code points).  pandas and [re] entry points whose
    behaviour is a library matter ([pd.to_datetime], [pd.to_numeric],
    [re.compile] on a user-typed pattern) are parameters of the model.
    The year and month columns hold calendar numbers and are represented by
    those integers; [movie_minutes] and [seasons] hold the float64 that
    [.astype(float)] produces from the captured digits ([float_of_int]). *)

From Stdlib Require Import ZArith List String Ascii Bool Lia Sorted Permutation.
Import ListNotations.
Local Open Scope string_scope.

(** ** Exceptions *)

Inductive exn : Type :=
| ReError      (* re.error raised by re.compile *)
| ValueError.  (* raised by idxmax on an empty Series *)

Inductive result (A : Type) : Type :=
| Ok (a : A)
| Raise (e : exn).
Arguments Ok {A} a.
Arguments Raise {A} e.

Definition bind {A B : Type} (m : result A) (k : A -> result B) : result B :=
  match m with
  | Ok a => k a
  | Raise e => Raise e
  end.

Notation "x <- m ;; k" := (bind m (fun x => k))
  (at level 61, m at next level, right associativity).

(** ** Python [str] methods used by the script *)

Module Py.

(** [str.isspace] on one code point; also the class [\s] of [re]. *)
Definition isspace (c : ascii) : bool :=
  let n := N_of_ascii c in
  (((9 <=? n) && (n <=? 13)) || ((28 <=? n) && (n <=? 32))
   || (n =? 133) || (n =? 160))%N.

(** The class [\d] of [re]: the decimal digits. *)
Definition isdigit (c : ascii) : bool :=
  let n := N_of_ascii c in ((48 <=? n) && (n <=? 57))%N.

Definition lower_char (c : ascii) : ascii :=
  let n := N_of_ascii c in
  if (((65 <=? n) && (n <=? 90))
      || ((192 <=? n) && (n <=? 222) && negb (n =? 215)))%N
  then ascii_of_N (n + 32) else c.

(** [s.lower()] *)
Fixpoint lower (s : string) : string :=
  match s with
  | EmptyString => EmptyString
  | String c r => String (lower_char c) (lower r)
  end.

Fixpoint lstrip (s : string) : string :=
  match s with
  | EmptyString => EmptyString
  | String c r => if isspace c then lstrip r else s
  end.

Fixpoint rstrip (s : string) : string :=
  match s with
  | EmptyString => EmptyString
  | String c r =>
      match rstrip r with
      | EmptyString => if isspace c then EmptyString else String c EmptyString
      | r' => String c r'
      end
  end.

(** [s.strip()] *)
Definition strip (s : string) : string := rstrip (lstrip s).

(** [s.split(sep)] for a one-character separator: never an empty list,
    [""] splits to [[""]]. *)
Fixpoint split (sep : ascii) (s : string) : list string :=
  match s with
  | EmptyString => [EmptyString]
  | String c r =>
      if Ascii.eqb c sep then EmptyString :: split sep r
      else match split sep r with
           | h :: t => String c h :: t
           | [] => [String c EmptyString]
           end
  end.

(** [sep.join(l)] *)
Fixpoint join (sep : ascii) (l : list string) : string :=
  match l with
  | [] => EmptyString
  | [x] => x
  | x :: t => x ++ String sep (join sep t)
  end.

(** [needle in hay] *)
Fixpoint contains (needle hay : string) : bool :=
  String.prefix needle hay
  || match hay with
     | EmptyString => false
     | String _ r => contains needle r
     end.

(** [x in l] for a list of strings, and [Series.isin] on one cell. *)
Definition isin (x : string) (l : list string) : bool :=
  existsb (String.eqb x) l.

(** truth value of a list: [if l:] *)
Definition truthy {A : Type} (l : list A) : bool :=
  match l with [] => false | _ => true end.

(** truth value of a string: [if s:] *)
Definition nonempty (s : string) : bool :=
  match s with EmptyString => false | _ => true end.

Definition digit_val (c : ascii) : Z := Z.of_N (N_of_ascii c) - 48.

(** value of a run of decimal digits, most significant first *)
Definition int_of_digits (ds : string) : Z :=
  fold_left (fun acc c => (10 * acc + digit_val c)%Z) (list_ascii_of_string ds) 0%Z.

End Py.

(** ** The two extraction patterns of the loader *)

Module Re.

(** All ways a greedy [p*] can consume a prefix of [s], longest first, each
    with what it consumed and what is left: the order in which a
    backtracking matcher tries them. *)
Fixpoint star (p : ascii -> bool) (s : string) : list (string * string) :=
  match s with
  | EmptyString => [(EmptyString, EmptyString)]
  | String c r =>
      if p c
      then map (fun cr => (String c (fst cr), snd cr)) (star p r) ++ [(EmptyString, s)]
      else [(EmptyString, s)]
  end.

(** [re.match(r"(\d+)\s*" + tok, s)]: group 1 of the first successful
    alternative in backtracking order. *)
Definition match_here (tok s : string) : option string :=
  let tries :=
    flat_map (fun d =>
      if Py.nonempty (fst d)
      then map (fun w => (fst d, snd w)) (star Py.isspace (snd d))
      else []) (star Py.isdigit s) in
  option_map fst (find (fun t => String.prefix tok (snd t)) tries).

(** [re.search(r"(\d+)\s*" + tok, s)]: leftmost start position first.
    This is what [Series.str.extract(pat, expand=False)] returns per cell
    for a one-group pattern; [None] is NaN. *)
Fixpoint extract (tok s : string) : option string :=
  match match_here tok s with
  | Some d => Some d
  | None =>
      match s with
      | EmptyString => None
      | String _ r => extract tok r
      end
  end.

End Re.

(** ** Loader (lines 41-90) *)

(** The calendar fields of a Timestamp that the script reads. *)
Record Date : Type := { year : Z; month : Z; day : Z }.

(** One row of [pd.read_csv(path)] after the column names are normalised:
    a cell is absent (NaN) or holds its text. *)
Record RawRow : Type := {
  raw_type : option string;
  raw_title : option string;
  raw_director : option string;
  raw_cast : option string;
  raw_country : option string;
  raw_date_added : option string;
  raw_release_year : option string;
  raw_rating : option string;
  raw_duration : option string;
  raw_listed_in : option string
}.

(** A float64 as [.astype(float)] yields it from a run of digits: a whole
    number that a double represents exactly, or +inf. *)
Inductive float64 : Type :=
| Finite (v : Z)
| Infinity.

(** [float(n)] for a whole number [n >= 0]: exact below 2^53; otherwise the
    53 leading bits, rounded to nearest with ties to even; +inf when the
    rounded value reaches 2^1024. *)
Definition float_of_int (n : Z) : float64 :=
  if (n <? 2 ^ 53)%Z then Finite n
  else
    let e := (Z.log2 n - 52)%Z in
    let q := (n / 2 ^ e)%Z in
    let r := (n mod 2 ^ e)%Z in
    let half := (2 ^ (e - 1))%Z in
    let q' :=
      if (r <? half)%Z then q
      else if (half <? r)%Z then (q + 1)%Z
      else if Z.even q then q else (q + 1)%Z in
    let v := (q' * 2 ^ e)%Z in
    if (v <? 2 ^ 1024)%Z then Finite v else Infinity.

(** a float that is not below zero *)
Definition float_nonneg (x : float64) : Prop :=
  match x with
  | Finite v => (0 <= v)%Z
  | Infinity => True
  end.

(** One row of the table [load_data] returns. *)
Record Row : Type := {
  type : string;
  title : string;
  director : string;
  cast : string;
  country : string;
  date_added : option Date;
  release_year : option Z;
  rating : string;
  duration : string;
  listed_in : string;
  year_added : option Z;
  month_added : option Z;
  country_list : list string;
  genre_list : list string;
  movie_minutes : option float64;
  seasons : option float64
}.

(** [Series.fillna(d)] on one cell *)
Definition fillna (d : string) (x : option string) : string :=
  match x with Some s => s | None => d end.

(** [Series.astype(str)] on one cell: NaN prints as ["nan"] *)
Definition astype_str (x : option string) : string :=
  match x with Some s => s | None => "nan" end.

(** The lambda of lines 67-69, on a cell that may be null. *)
Definition country_list_of (x : option string) : list string :=
  match x with
  | Some s => map Py.strip (Py.split "," s)
  | None => ["Unknown"]
  end.

(** The lambda of lines 70-72, on a cell that may be null. *)
Definition genre_list_of (x : option string) : list string :=
  match x with
  | Some s => map Py.strip (Py.split "," s)
  | None => []
  end.

(** [.str.extract(r"(\d+)\s*tok", expand=False).astype(float)] on one cell:
    the captured digits, read as a decimal number and cast to float64. *)
Definition extract_number (tok s : string) : option float64 :=
  option_map (fun d => float_of_int (Py.int_of_digits d)) (Re.extract tok s).

Section Loader.

(** [pd.to_datetime(column, errors="coerce")] at one cell: the first
    argument is the whole (stringified, stripped) column, from which pandas
    infers the format; [None] is NaT. *)
Variable to_datetime : list string -> string -> option Date.

(** [pd.to_numeric(column, errors="coerce").astype("Int64")] at one cell;
    [None] is <NA>. *)
Variable to_numeric : string -> option Z.

(** The text handed to [pd.to_datetime] for one cell (line 51). *)
Definition date_text (r : RawRow) : string :=
  Py.strip (astype_str (raw_date_added r)).

(** [has_date_added] is ["date_added" in df.columns] (line 49); [date_col]
    is the column handed to [pd.to_datetime]. *)
Definition load_row (has_date_added : bool) (date_col : list string)
    (r : RawRow) : Row :=
  let date :=
    if has_date_added then to_datetime date_col (date_text r) else None in
  let country := fillna "Unknown" (raw_country r) in
  let listed_in := fillna "" (raw_listed_in r) in
  let duration := fillna "" (raw_duration r) in
  {| type := fillna "Unknown" (raw_type r);
     title := fillna "Unknown" (raw_title r);
     director := fillna "Unknown" (raw_director r);
     cast := fillna "Unknown" (raw_cast r);
     country := country;
     date_added := date;
     release_year :=
       match raw_release_year r with
       | Some s => to_numeric s
       | None => None
       end;
     rating := fillna "Unknown" (raw_rating r);
     duration := duration;
     listed_in := listed_in;
     year_added := option_map year date;
     month_added := option_map month date;
     country_list := country_list_of (Some country);
     genre_list := genre_list_of (Some listed_in);
     movie_minutes := extract_number "min" duration;
     seasons := extract_number "Season" duration |}.

Definition load_data (has_date_added : bool) (raw : list RawRow) : list Row :=
  map (load_row has_date_added (map date_text raw)) raw.

End Loader.

(** ** Sidebar: time base and slider bounds (lines 101-109) *)

(** [Series.notna()] on one cell *)
Definition notna {A : Type} (x : option A) : bool :=
  match x with Some _ => true | None => false end.

(** [Series.between(lo, hi, inclusive="both")] on one cell: an absent value
    (NaN, <NA>) compares false, and a false or <NA> mask entry drops the row. *)
Definition between (x : option Z) (lo hi : Z) : bool :=
  match x with
  | Some v => ((lo <=? v) && (v <=? hi))%Z
  | None => false
  end.

(** [Series.dropna()] as a list of the present values *)
Definition dropna {A : Type} (col : list (option A)) : list A :=
  flat_map (fun x => match x with Some v => [v] | None => [] end) col.

(** [min] and [max] of the present values; [d] stands for the empty case. *)
Definition col_min (d : Z) (col : list (option Z)) : Z :=
  match dropna col with
  | [] => d
  | x :: t => fold_left Z.min t x
  end.

Definition col_max (d : Z) (col : list (option Z)) : Z :=
  match dropna col with
  | [] => d
  | x :: t => fold_left Z.max t x
  end.

(** line 102: [df["year_added"].notna().any()] *)
Definition use_year_added (df : list Row) : bool :=
  existsb (fun r => notna (year_added r)) df.

(** lines 103-109.  [np.nanmin]/[np.nanmax] are only reached with a present
    [year_added], so their empty case (the 0 below) is never taken. *)
Definition ymin (df : list Row) : Z :=
  if use_year_added df then col_min 0 (map year_added df)
  else col_min 1950 (map release_year df).

Definition ymax (df : list Row) : Z :=
  if use_year_added df then col_max 0 (map year_added df)
  else col_max 2021 (map release_year df).

(** The column the range check reads, as chosen on line 102. *)
Definition time_base (df : list Row) : Row -> option Z :=
  if use_year_added df then year_added else release_year.

(** ** Filter state and filter application (lines 111-175) *)

Record FilterState : Type := {
  year_range : Z * Z;
  type_sel : list string;
  country_sel : list string;
  genre_sel : list string;
  rating_sel : list string;
  query : string
}.

(** lines 118-119 and 155-156 *)
Definition filter_type (sel : list string) (f : list Row) : list Row :=
  if Py.truthy sel then filter (fun r => Py.isin (type r) sel) f else f.

(** lines 120-123 and 157-160: [df] is the full table, [f] the current view. *)
Definition filter_time (df : list Row) (yr : Z * Z) (f : list Row) : list Row :=
  if use_year_added df
  then filter (fun r => between (year_added r) (fst yr) (snd yr)) f
  else filter (fun r => between (release_year r) (fst yr) (snd yr)) f.

(** lines 117-123: the base subset behind the option lists *)
Definition base (df : list Row) (st : FilterState) : list Row :=
  filter_time df (year_range st) (filter_type (type_sel st) df).

(** [any(c in lst for c in sel)] *)
Definition any_in (sel lst : list string) : bool :=
  existsb (fun c => Py.isin c lst) sel.

(** lines 162-163 *)
Definition filter_country (sel : list string) (f : list Row) : list Row :=
  if Py.truthy sel then filter (fun r => any_in sel (country_list r)) f else f.

(** lines 164-165 *)
Definition filter_genre (sel : list string) (f : list Row) : list Row :=
  if Py.truthy sel then filter (fun r => any_in sel (genre_list r)) f else f.

(** lines 166-167 (the loaded table always has its [rating] column) *)
Definition filter_rating (sel : list string) (f : list Row) : list Row :=
  if Py.truthy sel then filter (fun r => Py.isin (rating r) sel) f else f.

(** lines 154-167: everything before the free-text search *)
Definition filter_selections (df : list Row) (st : FilterState) : list Row :=
  filter_rating (rating_sel st)
    (filter_genre (genre_sel st)
      (filter_country (country_sel st)
        (filter_time df (year_range st)
          (filter_type (type_sel st) df)))).

Section Search.

(** [re.compile(pat)]: raises [re.error], or gives the predicate
    [lambda x: pat.search(x) is not None] that [Series.str.contains(pat)]
    maps over a column (its [regex] argument defaults to [True]). *)
Variable re_compile : string -> result (string -> bool).

(** The mask of lines 172-174 on one row, for a compiled pattern. *)
Definition search_mask (m : string -> bool) (r : Row) : bool :=
  m (Py.lower (title r)) || m (Py.lower (cast r)) || m (Py.lower (director r)).

(** lines 169-175 *)
Definition filter_query (q0 : string) (f : list Row) : result (list Row) :=
  if Py.nonempty (Py.strip q0) then
    let q := Py.strip (Py.lower q0) in
    m <- re_compile q ;;
    Ok (filter (search_mask m) f)
  else Ok f.

(** lines 154-175: the final subset [f] *)
Definition apply_filter (df : list Row) (st : FilterState) : result (list Row) :=
  filter_query (query st) (filter_selections df st).

End Search.

(** ** Top genre (lines 196-202) *)

(** [f.explode(col)[col]]: one entry per list element, NaN for an empty list *)
Definition explode (col : Row -> list string) (f : list Row) : list (option string) :=
  flat_map (fun r => match col r with
                     | [] => [None]
                     | l => map Some l
                     end) f.

(** [.replace("", np.nan)] on one cell *)
Definition replace_empty_nan (x : option string) : option string :=
  match x with
  | Some EmptyString => None
  | _ => x
  end.

Fixpoint tally_add (k : string) (acc : list (string * nat)) : list (string * nat) :=
  match acc with
  | [] => [(k, 1)]
  | (k', n) :: t =>
      if String.eqb k k' then (k', S n) :: t else (k', n) :: tally_add k t
  end.

(** occurrences per distinct label, labels in first-encountered order *)
Definition tally (l : list string) : list (string * nat) :=
  fold_left (fun acc k => tally_add k acc) l [].

Fixpoint insert_desc (x : string * nat) (l : list (string * nat)) : list (string * nat) :=
  match l with
  | [] => [x]
  | y :: t => if Nat.ltb (snd x) (snd y) then y :: insert_desc x t else x :: y :: t
  end.

(** [Series.value_counts()]: descending counts, ties in first-encountered
    order. *)
Definition value_counts (l : list string) : list (string * nat) :=
  fold_right insert_desc [] (tally l).

(** [Series.idxmax()]: label of the first maximum; [ValueError] on an empty
    Series. *)
Definition idxmax (vc : list (string * nat)) : result string :=
  match vc with
  | [] => Raise ValueError
  | x :: t =>
      Ok (fst (fold_left (fun best y => if Nat.ltb (snd best) (snd y) then y else best) t x))
  end.

(** the genre entries counted for the metric (lines 197-198) *)
Definition genre_entries (f : list Row) : list string :=
  dropna (map replace_empty_nan (explode genre_list f)).

Definition placeholder : string := "—".

(** lines 196-202 *)
Definition top_genre (f : list Row) : result string :=
  if Py.truthy f && existsb (fun r => Py.truthy (genre_list r)) f
  then idxmax (value_counts (genre_entries f))
  else Ok placeholder.

(** how often the label [k] occurs in [l] *)
Definition occurrences (k : string) (l : list string) : nat :=
  List.length (filter (String.eqb k) l).

(** the count a tally holds for the label [k] *)
Definition weight (k : string) (acc : list (string * nat)) : nat :=
  list_sum (map (fun e => if String.eqb k (fst e) then snd e else 0) acc).

(** ** Search patterns without special characters *)

(** The characters [re] gives a special meaning. *)
Definition is_meta (c : ascii) : bool :=
  existsb (Ascii.eqb c)
    ["."; "^"; "$"; "*"; "+"; "?"; "{"; "}"; "["; "]"; "\"; "|"; "("; ")"]%char.



(** ** Filter states that differ in one criterion *)


Definition with_type_sel (st : FilterState) (sel : list string) : FilterState :=
  {| year_range := year_range st; type_sel := sel; country_sel := country_sel st;
     genre_sel := genre_sel st; rating_sel := rating_sel st; query := query st |}.

Definition with_country_sel (st : FilterState) (sel : list string) : FilterState :=
  {| year_range := year_range st; type_sel := type_sel st; country_sel := sel;
     genre_sel := genre_sel st; rating_sel := rating_sel st; query := query st |}.

Definition with_genre_sel (st : FilterState) (sel : list string) : FilterState :=
  {| year_range := year_range st; type_sel := type_sel st; country_sel := country_sel st;
     genre_sel := sel; rating_sel := rating_sel st; query := query st |}.

Definition with_rating_sel (st : FilterState) (sel : list string) : FilterState :=
  {| year_range := year_range st; type_sel := type_sel st; country_sel := country_sel st;
     genre_sel := genre_sel st; rating_sel := sel; query := query st |}.

Definition with_query (st : FilterState) (q : string) : FilterState :=
  {| year_range := year_range st; type_sel := type_sel st; country_sel := country_sel st;
     genre_sel := genre_sel st; rating_sel := rating_sel st; query := q |}.


(** ** The filter as one predicate over rows *)

(** An empty selection lets every row through. *)
Definition sel_ok (sel : list string) (hit : bool) : bool :=
  negb (Py.truthy sel) || hit.

(** All the criteria of lines 154-167 on one row, with the range check on
    the column [col]. *)
Definition row_ok (col : Row -> option Z) (st : FilterState) (r : Row) : bool :=
  sel_ok (type_sel st) (Py.isin (type r) (type_sel st))
  && between (col r) (fst (year_range st)) (snd (year_range st))
  && sel_ok (country_sel st) (any_in (country_sel st) (country_list r))
  && sel_ok (genre_sel st) (any_in (genre_sel st) (genre_list r))
  && sel_ok (rating_sel st) (Py.isin (rating r) (rating_sel st)).

(** ** Sample parsers and data *)

Module Sample.

Definition month_names : list string :=
  ["January"; "February"; "March"; "April"; "May"; "June"; "July";
   "August"; "September"; "October"; "November"; "December"].

Fixpoint index_from (i : Z) (x : string) (l : list string) : option Z :=
  match l with
  | [] => None
  | y :: t => if String.eqb x y then Some i else index_from (i + 1) x t
  end.

Definition all_digits (s : string) : bool :=
  Py.nonempty s && forallb Py.isdigit (list_ascii_of_string s).

(** A date parser for texts of the form ["September 9, 2021"]. *)
Definition to_datetime (_ : list string) (s : string) : option Date :=
  match Py.split " " s with
  | [m; d; y] =>
      match index_from 1 m month_names, Py.split "," d with
      | Some mi, [dd; EmptyString] =>
          if all_digits dd && all_digits y
          then Some {| year := Py.int_of_digits y; month := mi;
                       day := Py.int_of_digits dd |}
          else None
      | _, _ => None
      end
  | _ => None
  end.

(** A number parser for unsigned decimal texts. *)
Definition to_numeric (s : string) : option Z :=
  if all_digits s then Some (Py.int_of_digits s) else None.

(** [p] matches at the start of [t], where ["."] in [p] stands for any
    character but a newline. *)
Fixpoint match_prefix (p t : string) : bool :=
  match p, t with
  | EmptyString, _ => true
  | String _ _, EmptyString => false
  | String pc pr, String tc tr =>
      (if Ascii.eqb pc "." then negb (Ascii.eqb tc "010") else Ascii.eqb pc tc)
      && match_prefix pr tr
  end.

Fixpoint search (p t : string) : bool :=
  match_prefix p t
  || match t with
     | EmptyString => false
     | String _ r => search p r
     end.

(** A pattern engine for ordinary characters and ["."]; it rejects every
    other pattern. *)
Definition re_compile (p : string) : result (string -> bool) :=
  if forallb (fun c => negb (is_meta c) || Ascii.eqb c ".") (list_ascii_of_string p)
  then Ok (search p)
  else Raise ReError.

Definition raw (ty ti : string) (co da : option string) (ry : string)
    (du li : option string) : RawRow :=
  {| raw_type := Some ty; raw_title := Some ti; raw_director := None;
     raw_cast := None; raw_country := co; raw_date_added := da;
     raw_release_year := Some ry; raw_rating := Some "PG";
     raw_duration := du; raw_listed_in := li |}.

Definition raw1 : RawRow :=
  raw "Movie" "Abc" (Some "United States, France") (Some "September 9, 2021")
      "2020" (Some "90 min") (Some "Comedies").

Definition raw2 : RawRow :=
  raw "Movie" "Xyz" None None "2019" (Some "100 min") None.

Definition raw3 : RawRow :=
  raw "TV Show" "The Crown" (Some "United Kingdom") (Some "January 1, 2019")
      "2016" (Some "3 Seasons") (Some "Dramas, British TV Shows").

Definition raws : list RawRow := [raw1; raw2; raw3].

Definition load (rs : list RawRow) : list Row :=
  load_data to_datetime to_numeric true rs.

Definition df : list Row := load raws.

Definition state (yr : Z * Z) (types : list string) (q : string) : FilterState :=
  {| year_range := yr; type_sel := types; country_sel := []; genre_sel := [];
     rating_sel := []; query := q |}.

End Sample.

(** ** Trimmed texts *)

(** the text does not begin with white space *)
Definition starts_clean (t : string) : bool :=
  match t with
  | EmptyString => true
  | String c _ => negb (Py.isspace c)
  end.

(** the text does not end with white space *)
Fixpoint ends_clean (t : string) : bool :=
  match t with
  | EmptyString => true
  | String c r =>
      match r with
      | EmptyString => negb (Py.isspace c)
      | String _ _ => ends_clean r
      end
  end.

(** [t] is [p] without the white space at its two ends. *)
Definition trimmed_of (p t : string) : Prop :=
  exists l r,
    p = l ++ t ++ r
    /\ forallb Py.isspace (list_ascii_of_string l) = true
    /\ forallb Py.isspace (list_ascii_of_string r) = true
    /\ starts_clean t = true
    /\ ends_clean t = true.

(** ** Column names (line 46) *)

(** [s.replace(a, b)] for one-character [a] and [b] *)
Fixpoint replace_char (a b : ascii) (s : string) : string :=
  match s with
  | EmptyString => EmptyString
  | String c r => String (if Ascii.eqb c a then b else c) (replace_char a b r)
  end.

(** [c.strip().lower().replace(" ", "_")] *)
Definition normalize_column (c : string) : string :=
  replace_char " " "_" (Py.lower (Py.strip c)).

(** the same function applied to every character of a text *)
Fixpoint map_chars (g : ascii -> ascii) (s : string) : string :=
  match s with
  | EmptyString => EmptyString
  | String c r => String (g c) (map_chars g r)
  end.

(** what [normalize_column] does to one character of the stripped name *)
Definition normalize_char (c : ascii) : ascii :=
  if Ascii.eqb (Py.lower_char c) " " then "_"%char else Py.lower_char c.

(** ** Sidebar options (lines 111-145) *)

(** line 111: the slider's initial value [(max(ymin, ymax - 8), ymax)] *)
Definition default_year_range (df : list Row) : Z * Z :=
  (Z.max (ymin df) (ymax df - 8), ymax df).

(** [Series.unique()]: the distinct values in order of first appearance *)
Fixpoint unique (l : list string) : list string :=
  match l with
  | [] => []
  | x :: t => x :: filter (fun y => negb (String.eqb x y)) (unique t)
  end.

Fixpoint insert_sorted (x : string) (l : list string) : list string :=
  match l with
  | [] => [x]
  | y :: t => if String.leb x y then x :: l else y :: insert_sorted x t
  end.

(** [sorted(l)] on texts: ascending by code points *)
Definition sorted (l : list string) : list string :=
  fold_right insert_sorted [] l.

(** line 113 *)
Definition types (df : list Row) : list string :=
  sorted (unique (map type df)).

(** line 144 *)
Definition rating_options (df : list Row) : list string :=
  sorted (unique (map rating df)).

(** [.replace("", "Unknown")] on one cell *)
Definition replace_empty_unknown (x : option string) : option string :=
  match x with
  | Some EmptyString => Some "Unknown"
  | _ => x
  end.

(** [b.explode(col)[col].replace("", "Unknown").value_counts()]; the count
    leaves null entries out. *)
Definition option_counts (col : Row -> list string) (b : list Row)
    : list (string * nat) :=
  value_counts (dropna (map replace_empty_unknown (explode col b))).

(** lines 125-127 *)
Definition country_counts (b : list Row) : list (string * nat) :=
  option_counts country_list b.

(** lines 128-132: the options of the country selector *)
Definition country_options (df : list Row) (st : FilterState) : list string :=
  firstn 100 (map fst (country_counts (base df st))).

(** lines 134-136 *)
Definition genre_counts (b : list Row) : list (string * nat) :=
  option_counts genre_list b.

(** lines 137-142: the options of the genre selector *)
Definition genre_options (df : list Row) (st : FilterState) : list string :=
  firstn 100
    (filter (fun g => Py.nonempty g && negb (String.eqb g "Unknown"))
            (map fst (genre_counts (base df st)))).

(** ** Summary counts (lines 183-193) *)

(** [f[f["type"] == t].shape[0]] *)
Definition count_type (t : string) (f : list Row) : nat :=
  List.length (filter (fun r => String.eqb (type r) t) f).

Definition movies (f : list Row) : nat := count_type "Movie" f.

Definition shows (f : list Row) : nat := count_type "TV Show" f.

(** ** Top genres chart (lines 230-234) *)

(** [....value_counts().head(15)] over the genre entries *)
Definition gcounts (f : list Row) : list (string * nat) :=
  firstn 15 (value_counts (genre_entries f)).

(** ** People charts (lines 319-343) *)

Definition cons_head (c : ascii) (l : list string) : list string :=
  match l with
  | h :: t => String c h :: t
  | [] => [String c EmptyString]
  end.

(** [s.split(sep)] for the two-character separator [a b]: cuts at each
    occurrence found scanning from the left. *)
Fixpoint split_pair (a b : ascii) (s : string) : list string :=
  match s with
  | EmptyString => [EmptyString]
  | String c r =>
      match r with
      | String d r' =>
          if Ascii.eqb c a && Ascii.eqb d b
          then EmptyString :: split_pair a b r'
          else cons_head c (split_pair a b r)
      | EmptyString => [String c EmptyString]
      end
  end.

(** [f[col].dropna().astype(str).str.split(", ").explode().str.strip()]
    without its empty entries (lines 319-322, 335-338) *)
Definition people_labels (col : Row -> string) (f : list Row) : list string :=
  filter Py.nonempty
    (map Py.strip (flat_map (fun r => split_pair "," " " (col r)) f)).

(** [....value_counts().head(20)] *)
Definition people_counts (col : Row -> string) (f : list Row)
    : list (string * nat) :=
  firstn 20 (value_counts (people_labels col f)).

Definition actors (f : list Row) : list (string * nat) := people_counts cast f.

Definition directors (f : list Row) : list (string * nat) :=
  people_counts director f.

(** ** Trends tab (lines 250-275) *)

Inductive trend_chart : Type :=
| TrendYearAdded      (* "Titles Added Over Time (Year Added)" *)
| TrendReleaseYear    (* "Titles by Release Year" *)
| NoTemporalData.     (* "No temporal data for current filters." *)

(** lines 250-261: which trend chart is drawn for the final subset [f] *)
Definition trend_chart_of (df f : list Row) : trend_chart :=
  if use_year_added df && existsb (fun r => notna (year_added r)) f
  then TrendYearAdded
  else if existsb (fun r => notna (release_year r)) f
       then TrendReleaseYear
       else NoTemporalData.

(** line 264: whether the month-by-year heatmap is drawn *)
Definition heatmap_shown (df f : list Row) : bool :=
  use_year_added df
  && existsb (fun r => notna (year_added r)) f
  && existsb (fun r => notna (month_added r)) f.

(** ** Selections that grow *)

(** The second state widens one non-empty selection of the first: every
    value selected before is still selected; nothing else changes. *)
Inductive widens_selection (st : FilterState) : FilterState -> Prop :=
| widen_type sel : type_sel st <> [] -> incl (type_sel st) sel ->
    widens_selection st (with_type_sel st sel)
| widen_country sel : country_sel st <> [] -> incl (country_sel st) sel ->
    widens_selection st (with_country_sel st sel)
| widen_genre sel : genre_sel st <> [] -> incl (genre_sel st) sel ->
    widens_selection st (with_genre_sel st sel)
| widen_rating sel : rating_sel st <> [] -> incl (rating_sel st) sel ->
    widens_selection st (with_rating_sel st sel).

(** * Properties *)

(** ** Lists and views *)

Section Views.

Context {A : Type}.
Implicit Types (p q : A -> bool) (l : list A).

Lemma filter_twice p q l :
  filter p (filter q l) = filter (fun x => q x && p x) l.
Proof.
  induction l as [|x l IH]; simpl; [reflexivity|].
  destruct (q x) eqn:Hq; simpl.
  - destruct (p x); [rewrite IH|]; auto.
  - exact IH.
Qed.

Lemma filter_when (b : bool) p l :
  (if b then filter p l else l) = filter (fun x => negb b || p x) l.
Proof.
  destruct b; simpl; [reflexivity|].
  induction l as [|x l IH]; simpl; congruence.
Qed.

Lemma filter_length_mono p q l :
  (forall x, In x l -> p x = true -> q x = true) ->
  List.length (filter p l) <= List.length (filter q l).
Proof.
  induction l as [|x l IH]; intros Himp; simpl; [lia|].
  assert (Hx := Himp x (or_introl eq_refl)).
  assert (IH' : List.length (filter p l) <= List.length (filter q l))
    by (apply IH; intros y Hy; apply Himp; right; exact Hy).
  destruct (p x) eqn:Hp.
  - rewrite (Hx eq_refl); simpl; lia.
  - destruct (q x); simpl; lia.
Qed.

End Views.

(** ** Column minimum and maximum *)

Lemma fold_min_le (t : list Z) : forall x v,
  In v (x :: t) -> (fold_left Z.min t x <= v)%Z.
Proof.
  induction t as [|y t IH]; intros x v Hin; simpl.
  - destruct Hin as [->|[]]; lia.
  - destruct Hin as [->|[->|Hin]].
    + specialize (IH (Z.min v y) (Z.min v y) (or_introl eq_refl)); lia.
    + specialize (IH (Z.min x v) (Z.min x v) (or_introl eq_refl)); lia.
    + apply IH; right; exact Hin.
Qed.

Lemma fold_max_ge (t : list Z) : forall x v,
  In v (x :: t) -> (v <= fold_left Z.max t x)%Z.
Proof.
  induction t as [|y t IH]; intros x v Hin; simpl.
  - destruct Hin as [->|[]]; lia.
  - destruct Hin as [->|[->|Hin]].
    + specialize (IH (Z.max v y) (Z.max v y) (or_introl eq_refl)); lia.
    + specialize (IH (Z.max x v) (Z.max x v) (or_introl eq_refl)); lia.
    + apply IH; right; exact Hin.
Qed.

Lemma dropna_In {A : Type} (col : list (option A)) (v : A) :
  In (Some v) col -> In v (dropna col).
Proof.
  intros Hin; unfold dropna; apply in_flat_map.
  exists (Some v); split; [exact Hin|left; reflexivity].
Qed.

Lemma col_min_le d col v : In (Some v) col -> (col_min d col <= v)%Z.
Proof.
  intros Hin; apply dropna_In in Hin; unfold col_min.
  destruct (dropna col) as [|x t]; [destruct Hin|].
  apply fold_min_le; exact Hin.
Qed.

Lemma col_max_ge d col v : In (Some v) col -> (v <= col_max d col)%Z.
Proof.
  intros Hin; apply dropna_In in Hin; unfold col_max.
  destruct (dropna col) as [|x t]; [destruct Hin|].
  apply fold_max_ge; exact Hin.
Qed.

(** The slider bounds enclose every present value of the active column. *)
Lemma time_base_within_bounds df r v :
  In r df -> time_base df r = Some v -> (ymin df <= v <= ymax df)%Z.
Proof.
  intros Hin Hv; unfold ymin, ymax, time_base in *.
  destruct (use_year_added df); split;
    (apply col_min_le || apply col_max_ge);
    rewrite <- Hv; apply in_map; exact Hin.
Qed.

(** ** The time base *)

Lemma use_year_added_true df :
  use_year_added df = true <-> exists r, In r df /\ year_added r <> None.
Proof.
  unfold use_year_added; rewrite existsb_exists; split; intros [r [Hin H]];
    exists r; split; auto; destruct (year_added r); simpl in *; congruence.
Qed.

Lemma use_year_added_false df :
  use_year_added df = false <-> forall r, In r df -> year_added r = None.
Proof.
  split.
  - intros Hf r Hin; destruct (year_added r) eqn:Hy; [|reflexivity].
    assert (use_year_added df = true) by
      (apply use_year_added_true; exists r; split; [exact Hin|congruence]).
    congruence.
  - intros Hall; destruct (use_year_added df) eqn:Hu; [|reflexivity].
    apply use_year_added_true in Hu; destruct Hu as [r [Hin Hne]].
    elim Hne; apply Hall; exact Hin.
Qed.

(** ** The pipeline is one conjunction of criteria *)

Lemma filter_time_between df yr f :
  filter_time df yr f =
  filter (fun r => between (time_base df r) (fst yr) (snd yr)) f.
Proof. unfold filter_time, time_base; destruct (use_year_added df); reflexivity. Qed.

Lemma base_row_ok df st :
  base df st =
  filter (fun r => sel_ok (type_sel st) (Py.isin (type r) (type_sel st))
                   && between (time_base df r) (fst (year_range st)) (snd (year_range st)))
         df.
Proof.
  unfold base, filter_type; rewrite filter_time_between, filter_when, filter_twice.
  reflexivity.
Qed.

Lemma filter_selections_row_ok df st :
  filter_selections df st = filter (row_ok (time_base df) st) df.
Proof.
  unfold filter_selections, filter_rating, filter_genre, filter_country, filter_type.
  rewrite filter_time_between, !filter_when, !filter_twice.
  apply filter_ext; intros r; unfold row_ok, sel_ok.
  rewrite !andb_assoc; reflexivity.
Qed.

Lemma filter_query_incl re q f f' :
  filter_query re q f = Ok f' -> incl f' f.
Proof.
  unfold filter_query; destruct (Py.nonempty (Py.strip q)).
  - destruct (re (Py.strip (Py.lower q))) as [m|e]; simpl; [|discriminate].
    intros [= <-] x Hx; apply filter_In in Hx; tauto.
  - intros [= <-] x Hx; exact Hx.
Qed.


Lemma sel_ok_truthy (sel : list string) hit :
  sel <> [] -> sel_ok sel hit = hit.
Proof. destruct sel; [congruence|reflexivity]. Qed.



(** ** Filter application *)

(** C1, as amended.  When the type set is the only non-empty selection, the
    query is empty and the year range is the full slider range
    [[ymin, ymax]] of the active time base, the filter result is exactly the
    rows whose type is selected and whose active time-base value is present:
    the range check still drops every row whose time-base value is absent,
    and nothing else is dropped. *)
Theorem type_only_full_range_result :
  forall (re : string -> result (string -> bool)) (df : list Row) (st : FilterState),
    type_sel st <> [] ->
    country_sel st = [] -> genre_sel st = [] -> rating_sel st = [] ->
    query st = "" ->
    year_range st = (ymin df, ymax df) ->
    apply_filter re df st =
    Ok (filter (fun r => Py.isin (type r) (type_sel st) && notna (time_base df r)) df).
Proof.
  intros re df st Hty Hco Hge Hra Hq Hyr.
  unfold apply_filter, filter_query; rewrite Hq; simpl; f_equal.
  rewrite filter_selections_row_ok.
  apply filter_ext_in; intros r Hin.
  unfold row_ok; rewrite Hco, Hge, Hra, Hyr, (sel_ok_truthy _ _ Hty); simpl.
  rewrite !andb_true_r; f_equal.
  destruct (time_base df r) as [v|] eqn:Hv; simpl; [|reflexivity].
  destruct (time_base_within_bounds df r v Hin Hv) as [Hlo Hhi].
  apply andb_true_iff; split; apply Z.leb_le; assumption.
Qed.



(** C5.  A row whose active time-base value ([year_added], or
    [release_year] under the fallback) is absent is in no filter result,
    whatever the bounds of the year range: it is missing from the base
    subset, from the view before the search and from every final subset. *)
Theorem absent_time_base_excluded :
  forall (re : string -> result (string -> bool)) (df : list Row)
         (st : FilterState) (r : Row),
    time_base df r = None ->
    ~ In r (base df st)
    /\ ~ In r (filter_selections df st)
    /\ forall f, apply_filter re df st = Ok f -> ~ In r f.
Proof.
  intros re df st r Habs.
  assert (Hsel : ~ In r (filter_selections df st)).
  { rewrite filter_selections_row_ok; intros Hin.
    apply filter_In in Hin; destruct Hin as [_ Hok].
    unfold row_ok in Hok; rewrite Habs in Hok; simpl in Hok.
    rewrite andb_false_r in Hok; discriminate. }
  split; [|split].
  - rewrite base_row_ok; intros Hin.
    apply filter_In in Hin; destruct Hin as [_ Hok].
    rewrite Habs in Hok; simpl in Hok; rewrite andb_false_r in Hok; discriminate.
  - exact Hsel.
  - intros f Hf Hin; apply Hsel.
    exact (filter_query_incl _ _ _ _ Hf r Hin).
Qed.

(** ** Splitting and trimming *)

Lemma split_not_nil sep s : Py.split sep s <> [].
Proof.
  destruct s as [|c r]; simpl; [discriminate|].
  destruct (Ascii.eqb c sep); [discriminate|].
  destruct (Py.split sep r); discriminate.
Qed.

(** Joining the pieces with the separator gives the text back. *)
Lemma join_split sep s : Py.join sep (Py.split sep s) = s.
Proof.
  induction s as [|c r IH]; simpl; [reflexivity|].
  destruct (Ascii.eqb_spec c sep) as [->|Hne].
  - pose proof (split_not_nil sep r) as Hnn.
    simpl; destruct (Py.split sep r) as [|h t]; [congruence|].
    simpl in *; rewrite IH; reflexivity.
  - pose proof (split_not_nil sep r) as Hnn.
    destruct (Py.split sep r) as [|h t]; [congruence|].
    destruct t as [|h' t']; simpl in *; rewrite <- IH; reflexivity.
Qed.

(** No piece holds the separator. *)
Lemma split_no_sep sep s :
  Forall (fun x => ~ In sep (list_ascii_of_string x)) (Py.split sep s).
Proof.
  induction s as [|c r IH]; simpl.
  - constructor; [intros []|constructor].
  - destruct (Ascii.eqb_spec c sep) as [->|Hne].
    + constructor; [intros []|exact IH].
    + destruct (Py.split sep r) as [|h t].
      * constructor; [|constructor]. simpl; intros [H|[]]; congruence.
      * inversion IH as [|? ? Hh Ht]; subst.
        constructor; [|exact Ht]. simpl; intros [H|H]; [congruence|tauto].
Qed.

Lemma rstrip_idem s : Py.rstrip (Py.rstrip s) = Py.rstrip s.
Proof.
  induction s as [|c r IH]; simpl; [reflexivity|].
  destruct (Py.rstrip r) as [|c' r'] eqn:Hr.
  - destruct (Py.isspace c) eqn:Hc; simpl; [reflexivity|rewrite Hc; reflexivity].
  - simpl in IH |- *. rewrite IH; reflexivity.
Qed.

Lemma lstrip_head s :
  match Py.lstrip s with
  | EmptyString => True
  | String c _ => Py.isspace c = false
  end.
Proof.
  induction s as [|c r IH]; simpl; [exact I|].
  destruct (Py.isspace c) eqn:Hc; [exact IH|exact Hc].
Qed.

Lemma rstrip_keeps_head c r :
  Py.isspace c = false -> exists r', Py.rstrip (String c r) = String c r'.
Proof.
  intros Hc; simpl; destruct (Py.rstrip r); [rewrite Hc|]; eauto.
Qed.

(** A stripped text has no white space left at either end. *)
Lemma strip_trimmed s :
  Py.lstrip (Py.strip s) = Py.strip s /\ Py.rstrip (Py.strip s) = Py.strip s.
Proof.
  unfold Py.strip; split; [|apply rstrip_idem].
  pose proof (lstrip_head s) as Hh.
  destruct (Py.lstrip s) as [|c r]; [reflexivity|].
  destruct (rstrip_keeps_head c r Hh) as [r' ->].
  simpl; rewrite Hh; reflexivity.
Qed.

Lemma strip_idem s : Py.strip (Py.strip s) = Py.strip s.
Proof.
  destruct (strip_trimmed s) as [Hl Hr].
  unfold Py.strip at 1; rewrite Hl; exact Hr.
Qed.

(** ** Loaded rows *)

(** What holds of each raw row and the row loaded from it holds along the
    whole loaded table. *)
Lemma load_data_rows td tn has raws (P : RawRow -> Row -> Prop) :
  (forall raw, In raw raws -> P raw (load_row td tn has (map date_text raws) raw)) ->
  Forall2 P raws (load_data td tn has raws).
Proof.
  unfold load_data; generalize (map date_text raws) as col; intros col.
  induction raws as [|raw raws IH]; intros HP; simpl; constructor.
  - apply HP; left; reflexivity.
  - apply IH; intros raw' Hin; apply HP; right; exact Hin.
Qed.

(** Along a loaded table no [country_list] and no [genre_list] is empty. *)
Lemma loaded_lists_not_nil td tn has raws :
  Forall2 (fun _ r => country_list r <> [] /\ genre_list r <> [])
          raws (load_data td tn has raws).
Proof.
  apply load_data_rows; intros raw _; simpl; split.
  - pose proof (split_not_nil "," (fillna "Unknown" (raw_country raw))) as H.
    destruct (Py.split "," _); [congruence|discriminate].
  - pose proof (split_not_nil "," (fillna "" (raw_listed_in raw))) as H.
    destruct (Py.split "," _); [congruence|discriminate].
Qed.

Lemma load_data_length td tn has raws :
  List.length (load_data td tn has raws) = List.length raws.
Proof. unfold load_data; apply length_map. Qed.

(** C2, on the code.  For a row whose genre text [listed_in] is absent the
    loader's [genre_list] is the one-element list holding the empty string,
    not the empty list: line 65 has already replaced the missing value by
    [""], so the [else []] of the lambda on line 71 is never taken. *)
Theorem genre_list_of_absent_listed_in :
  forall td tn has col (raw : RawRow),
    raw_listed_in raw = None ->
    genre_list (load_row td tn has col raw) = [""]
    /\ genre_list (load_row td tn has col raw) <> [].
Proof.
  intros td tn has col raw Habs; simpl; rewrite Habs; simpl.
  split; [reflexivity|discriminate].
Qed.

Lemma lstrip_cut s :
  exists l, s = l ++ Py.lstrip s
            /\ forallb Py.isspace (list_ascii_of_string l) = true.
Proof.
  induction s as [|c r [l [Hl Hsp]]]; simpl; [exists ""; split; reflexivity|].
  destruct (Py.isspace c) eqn:Hc.
  - exists (String c l); simpl; rewrite Hc, Hsp, <- Hl; split; reflexivity.
  - exists ""; split; reflexivity.
Qed.

Lemma rstrip_cut s :
  exists r, s = Py.rstrip s ++ r
            /\ forallb Py.isspace (list_ascii_of_string r) = true.
Proof.
  induction s as [|c s [r [Hr Hsp]]]; simpl; [exists ""; split; reflexivity|].
  destruct (Py.rstrip s) as [|c' s'] eqn:Hs.
  - simpl in Hr; subst r; destruct (Py.isspace c) eqn:Hc.
    + exists (String c s); simpl; rewrite Hc, Hsp; split; reflexivity.
    + exists s; split; [reflexivity|exact Hsp].
  - exists r; simpl in *; rewrite <- Hr; split; [reflexivity|exact Hsp].
Qed.

Lemma rstrip_ends_clean s : ends_clean (Py.rstrip s) = true.
Proof.
  induction s as [|c s IH]; simpl; [reflexivity|].
  destruct (Py.rstrip s) as [|c' s'].
  - destruct (Py.isspace c) eqn:Hc; simpl; [reflexivity|rewrite Hc; reflexivity].
  - exact IH.
Qed.

Lemma strip_starts_clean s : starts_clean (Py.strip s) = true.
Proof.
  unfold Py.strip; pose proof (lstrip_head s) as Hh.
  destruct (Py.lstrip s) as [|c r]; [reflexivity|].
  destruct (rstrip_keeps_head c r Hh) as [r' ->]; simpl; rewrite Hh; reflexivity.
Qed.

(** Stripping removes white space from the two ends and nothing else. *)
Lemma strip_trimmed_of s : trimmed_of s (Py.strip s).
Proof.
  destruct (lstrip_cut s) as [l [Hl Hlsp]].
  destruct (rstrip_cut (Py.lstrip s)) as [r [Hr Hrsp]].
  exists l, r; unfold Py.strip; rewrite <- Hr, <- Hl.
  split; [reflexivity|split; [exact Hlsp|split; [exact Hrsp|]]].
  split; [apply strip_starts_clean|apply rstrip_ends_clean].
Qed.

Lemma Forall2_map_right {A B : Type} (R : A -> B -> Prop) (f : A -> B) l :
  (forall x, R x (f x)) -> Forall2 R l (map f l).
Proof. intros HR; induction l; simpl; constructor; auto. Qed.

(** C6.  For every input row the country text, ["Unknown"] when the
    country is absent, is cut at its commas into pieces: the pieces joined
    by commas give the text back and none of them holds a comma; the loader's
    [country_list] lists, in the same order, each piece without the white
    space at its two ends.  It is [["Unknown"]] when the country is absent,
    it is never empty, and exploding it yields no null entry. *)
Theorem country_list_spec :
  forall td tn has col (raw : RawRow),
    (exists pieces,
        Py.join "," pieces = fillna "Unknown" (raw_country raw)
        /\ Forall (fun p => ~ In ","%char (list_ascii_of_string p)) pieces
        /\ Forall2 trimmed_of pieces (country_list (load_row td tn has col raw)))
    /\ (raw_country raw = None ->
        country_list (load_row td tn has col raw) = ["Unknown"])
    /\ country_list (load_row td tn has col raw) <> []
    /\ ~ In None (explode country_list [load_row td tn has col raw]).
Proof.
  intros td tn has col raw; simpl.
  set (s := fillna "Unknown" (raw_country raw)).
  assert (Hnn : map Py.strip (Py.split "," s) <> []).
  { pose proof (split_not_nil "," s) as H.
    destruct (Py.split "," s); [congruence|discriminate]. }
  split; [|split; [|split]].
  - exists (Py.split "," s); split; [apply join_split|].
    split; [apply split_no_sep|].
    apply Forall2_map_right, strip_trimmed_of.
  - intros Habs; subst s; rewrite Habs; reflexivity.
  - exact Hnn.
  - rewrite app_nil_r.
    destruct (map Py.strip (Py.split "," s)) as [|x l]; [congruence|].
    change (~ In None (map Some (x :: l))).
    intros Hin; apply in_map_iff in Hin.
    destruct Hin as [y [Hy _]]; discriminate.
Qed.

(** C7.  With a date parser that maps the text ["nan"] of a missing cell to
    NaT, every loaded row has [year_added] and [month_added] both present or
    both absent; they are absent exactly when the date column is missing, the
    cell is missing or its stripped text does not parse; and when present
    they are the year and the month of the one parsed [date_added]. *)
Theorem year_month_added_together :
  forall (td : list string -> string -> option Date) tn has col (raw : RawRow),
    (forall c, td c "nan" = None) ->
    (year_added (load_row td tn has col raw) = None
       <-> month_added (load_row td tn has col raw) = None)
    /\ (year_added (load_row td tn has col raw) = None
        <-> has = false
            \/ raw_date_added raw = None
            \/ exists s, raw_date_added raw = Some s /\ td col (Py.strip s) = None)
    /\ (year_added (load_row td tn has col raw) = None
        <-> date_added (load_row td tn has col raw) = None)
    /\ (forall d, date_added (load_row td tn has col raw) = Some d ->
          year_added (load_row td tn has col raw) = Some (year d)
          /\ month_added (load_row td tn has col raw) = Some (month d)).
Proof.
  intros td tn has col raw Hnan.
  set (r := load_row td tn has col raw).
  assert (Hy : year_added r = option_map year (date_added r)) by reflexivity.
  assert (Hm : month_added r = option_map month (date_added r)) by reflexivity.
  assert (Hd : date_added r =
               if has then td col (Py.strip (astype_str (raw_date_added raw)))
               else None) by reflexivity.
  assert (Hparse : date_added r = None <->
                   has = false \/ raw_date_added raw = None
                   \/ exists s, raw_date_added raw = Some s
                                /\ td col (Py.strip s) = None).
  { rewrite Hd; destruct has.
    - destruct (raw_date_added raw) as [s|]; simpl.
      + split.
        * intros H; right; right; exists s; split; [reflexivity|exact H].
        * intros [H|[H|[s' [[= <-] H]]]]; [discriminate|discriminate|exact H].
      + split; [intros _; right; left; reflexivity|intros _; apply Hnan].
    - split; [intros _; left; reflexivity|reflexivity]. }
  rewrite Hy, Hm; clearbody r.
  destruct (date_added r) as [d|]; simpl.
  - split; [split; discriminate|].
    split; [split; [discriminate|intros H; apply Hparse in H; discriminate]|].
    split; [split; discriminate|].
    intros d' [= <-]; split; reflexivity.
  - split; [tauto|].
    split; [split; [intros _; apply Hparse; reflexivity|reflexivity]|].
    split; [tauto|discriminate].
Qed.

(** ** Duration extraction *)

Lemma chars_app a b :
  list_ascii_of_string (a ++ b) = (list_ascii_of_string a ++ list_ascii_of_string b)%list.
Proof. induction a as [|c a IH]; simpl; [reflexivity|rewrite IH; reflexivity]. Qed.

Lemma append_assoc (a b c : string) : (a ++ b) ++ c = a ++ (b ++ c).
Proof. induction a as [|x a IH]; simpl; [reflexivity|rewrite IH; reflexivity]. Qed.

(** Every alternative of [star] cuts the text in two. *)
Lemma star_cut p s a b : In (a, b) (Re.star p s) -> s = a ++ b.
Proof.
  revert a b; induction s as [|c r IH]; intros a b; simpl.
  - intros [[= <- <-]|[]]; reflexivity.
  - destruct (p c).
    + intros Hin; apply in_app_or in Hin; destruct Hin as [Hin|[[= <- <-]|[]]].
      * apply in_map_iff in Hin; destruct Hin as [[a' b'] [[= <- <-] Hin]].
        simpl; rewrite (IH a' b' Hin); reflexivity.
      * reflexivity.
    + intros [[= <- <-]|[]]; reflexivity.
Qed.

(** The first alternative takes the whole run. *)
Lemma star_longest_first p ds r :
  forallb p (list_ascii_of_string ds) = true ->
  match r with EmptyString => True | String c _ => p c = false end ->
  exists rest, Re.star p (ds ++ r) = (ds, r) :: rest.
Proof.
  intros Hds Hr; induction ds as [|c ds IH]; simpl in *.
  - destruct r as [|c r]; [eexists; reflexivity|].
    simpl; rewrite Hr; eexists; reflexivity.
  - apply andb_true_iff in Hds; destruct Hds as [Hc Hds]; rewrite Hc.
    destruct (IH Hds) as [rest ->]; simpl; eexists; reflexivity.
Qed.

Lemma extract_unfold tok s :
  Re.extract tok s =
  match Re.match_here tok s with
  | Some d => Some d
  | None => match s with
            | EmptyString => None
            | String _ r => Re.extract tok r
            end
  end.
Proof. destruct s; reflexivity. Qed.

(** A digit run, one blank and the token: the pattern captures the run. *)
Lemma extract_run tok ds rest :
  ds <> "" ->
  forallb Py.isdigit (list_ascii_of_string ds) = true ->
  String.prefix tok rest = true ->
  match rest with EmptyString => True | String c _ => Py.isspace c = false end ->
  Re.extract tok (ds ++ String " " rest) = Some ds.
Proof.
  intros Hne Hds Htok Hrest.
  rewrite extract_unfold; unfold Re.match_here.
  destruct (star_longest_first Py.isdigit ds (String " " rest) Hds eq_refl)
    as [alts ->].
  destruct (star_longest_first Py.isspace " " rest eq_refl Hrest) as [alts' Hsp].
  simpl in Hsp; simpl flat_map.
  destruct ds as [|c ds]; [congruence|].
  cbn [Py.nonempty]; rewrite Hsp.
  cbn [map app find fst snd]; rewrite Htok; reflexivity.
Qed.

Lemma contains_unfold tok s :
  Py.contains tok s =
  String.prefix tok s
  || match s with
     | EmptyString => false
     | String _ r => Py.contains tok r
     end.
Proof. destruct s; reflexivity. Qed.

Lemma contains_cons tok c r :
  Py.contains tok (String c r) = String.prefix tok (String c r) || Py.contains tok r.
Proof. reflexivity. Qed.

Lemma prefix_contains tok a b :
  String.prefix tok b = true -> Py.contains tok (a ++ b) = true.
Proof.
  intros Hp; induction a as [|c a IH].
  - simpl; rewrite contains_unfold, Hp; reflexivity.
  - change (String c a ++ b) with (String c (a ++ b)).
    rewrite contains_cons, IH; apply orb_true_r.
Qed.

Lemma match_here_contains tok s d :
  Re.match_here tok s = Some d -> Py.contains tok s = true.
Proof.
  unfold Re.match_here; intros H.
  destruct (find _ _) as [t|] eqn:Hf; [|discriminate].
  apply find_some in Hf; destruct Hf as [Hin Hp].
  apply in_flat_map in Hin; destruct Hin as [[a b] [Hab Hin]]; simpl in Hin.
  destruct (Py.nonempty a); [|destruct Hin].
  apply in_map_iff in Hin; destruct Hin as [[w b'] [<- Hw]]; simpl in Hp.
  apply star_cut in Hab; apply star_cut in Hw; subst.
  rewrite <- append_assoc; apply prefix_contains; exact Hp.
Qed.

(** The pattern finds a number only in a text that holds the token. *)
Lemma extract_contains tok s d :
  Re.extract tok s = Some d -> Py.contains tok s = true.
Proof.
  induction s as [|c r IH]; rewrite extract_unfold;
    destruct (Re.match_here tok _) eqn:Hm;
    try (intros _; eapply match_here_contains; exact Hm).
  - discriminate.
  - intros H; rewrite contains_cons, (IH H); apply orb_true_r.
Qed.

Lemma prefix_head c tok c' s :
  String.prefix (String c tok) (String c' s) = true -> c = c'.
Proof. simpl; destruct (ascii_dec c c'); [auto|discriminate]. Qed.

Lemma contains_head c tok s :
  Py.contains (String c tok) s = true -> In c (list_ascii_of_string s).
Proof.
  induction s as [|c' s IH]; [discriminate|rewrite contains_cons].
  intros H; apply orb_true_iff in H; destruct H as [H|H].
  - left; symmetry; eapply prefix_head; exact H.
  - right; apply IH; exact H.
Qed.

(** No match when the first character of the token occurs nowhere. *)
Lemma extract_absent c tok s :
  ~ In c (list_ascii_of_string s) -> Re.extract (String c tok) s = None.
Proof.
  intros Hnot; destruct (Re.extract (String c tok) s) eqn:He; [|reflexivity].
  elim Hnot; eapply contains_head, extract_contains; exact He.
Qed.

Lemma digits_lack c ds tail :
  forallb Py.isdigit (list_ascii_of_string ds) = true ->
  Py.isdigit c = false ->
  ~ In c (list_ascii_of_string tail) ->
  ~ In c (list_ascii_of_string (ds ++ tail)).
Proof.
  intros Hds Hc Htail; rewrite chars_app; intros Hin.
  apply in_app_or in Hin; destruct Hin as [Hin|Hin]; [|tauto].
  rewrite forallb_forall in Hds; rewrite (Hds c Hin) in Hc; discriminate.
Qed.

Lemma float_of_int_exact n : (n < 2 ^ 53)%Z -> float_of_int n = Finite n.
Proof.
  intros Hn; unfold float_of_int.
  destruct (Z.ltb_spec n (2 ^ 53)); [reflexivity|lia].
Qed.

(** C8, as amended.  For a row whose duration is a decimal integer
    followed by [" min"], [movie_minutes] is the float64 of that integer,
    which is the integer itself when it is below 2^53, and [seasons] is
    absent; for a row whose duration is a decimal integer followed by
    [" Season"] or [" Seasons"], [seasons] is the float64 of that integer, the
    integer itself below 2^53, and [movie_minutes] is absent (so for a Movie
    row of the first form and a TV Show row of the second, exactly one of the
    two is populated); for a row without duration both are absent. *)
Theorem duration_columns :
  forall td tn has col (raw : RawRow) (ds : string),
    ds <> "" ->
    forallb Py.isdigit (list_ascii_of_string ds) = true ->
    (raw_type raw = Some "Movie" ->
     raw_duration raw = Some (ds ++ " min") ->
       movie_minutes (load_row td tn has col raw)
         = Some (float_of_int (Py.int_of_digits ds))
       /\ seasons (load_row td tn has col raw) = None
       /\ ((Py.int_of_digits ds < 2 ^ 53)%Z ->
           movie_minutes (load_row td tn has col raw)
             = Some (Finite (Py.int_of_digits ds))))
    /\ (raw_type raw = Some "TV Show" ->
        raw_duration raw = Some (ds ++ " Season")
        \/ raw_duration raw = Some (ds ++ " Seasons") ->
          seasons (load_row td tn has col raw)
            = Some (float_of_int (Py.int_of_digits ds))
          /\ movie_minutes (load_row td tn has col raw) = None
          /\ ((Py.int_of_digits ds < 2 ^ 53)%Z ->
              seasons (load_row td tn has col raw)
                = Some (Finite (Py.int_of_digits ds))))
    /\ (raw_duration raw = None ->
          movie_minutes (load_row td tn has col raw) = None
          /\ seasons (load_row td tn has col raw) = None).
Proof.
  intros td tn has col raw ds Hne Hds; simpl; unfold extract_number.
  split; [|split].
  - intros _ ->; simpl fillna.
    rewrite (extract_run "min" ds "min" Hne Hds eq_refl eq_refl); simpl option_map.
    split; [reflexivity|split].
    + rewrite extract_absent; [reflexivity|].
      apply digits_lack; [exact Hds|reflexivity|].
      simpl; intuition discriminate.
    + intros Hlt; rewrite (float_of_int_exact _ Hlt); reflexivity.
  - intros _ [-> | ->]; simpl fillna.
    + rewrite (extract_run "Season" ds "Season" Hne Hds eq_refl eq_refl);
        simpl option_map.
      split; [reflexivity|split].
      * rewrite extract_absent; [reflexivity|].
        apply digits_lack; [exact Hds|reflexivity|].
        simpl; intuition discriminate.
      * intros Hlt; rewrite (float_of_int_exact _ Hlt); reflexivity.
    + rewrite (extract_run "Season" ds "Seasons" Hne Hds eq_refl eq_refl);
        simpl option_map.
      split; [reflexivity|split].
      * rewrite extract_absent; [reflexivity|].
        apply digits_lack; [exact Hds|reflexivity|].
        simpl; intuition discriminate.
      * intros Hlt; rewrite (float_of_int_exact _ Hlt); reflexivity.
  - intros ->; split; reflexivity.
Qed.

(** ** Top genre *)

Lemma top_genre_empty : top_genre [] = Ok placeholder.
Proof. reflexivity. Qed.

Lemma genre_entries_cons r f :
  genre_entries (r :: f) = (genre_entries [r] ++ genre_entries f)%list.
Proof.
  unfold genre_entries, explode, dropna; simpl.
  rewrite app_nil_r, map_app, flat_map_app; reflexivity.
Qed.

(** Rows loaded without genre text contribute no entry to the count. *)
Lemma genre_entries_absent td tn has col raws :
  (forall raw, In raw raws -> raw_listed_in raw = None) ->
  genre_entries (map (load_row td tn has col) raws) = [].
Proof.
  induction raws as [|raw raws IH]; intros Habs; [reflexivity|].
  simpl map; rewrite genre_entries_cons, IH
    by (intros raw' Hin; apply Habs; right; exact Hin).
  unfold genre_entries; simpl.
  rewrite (Habs raw (or_introl eq_refl)); reflexivity.
Qed.

(** *** Counting *)

Lemma weight_tally_add k k' acc :
  weight k (tally_add k' acc) =
  weight k acc + (if String.eqb k k' then 1 else 0).
Proof.
  unfold weight; induction acc as [|[k'' n] acc IH]; simpl.
  - lia.
  - destruct (String.eqb_spec k' k'') as [->|Hne]; simpl.
    + destruct (String.eqb k k''); lia.
    + rewrite IH; lia.
Qed.

Lemma weight_fold l : forall k acc,
  weight k (fold_left (fun a x => tally_add x a) l acc) =
  weight k acc + occurrences k l.
Proof.
  unfold occurrences; induction l as [|x l IH]; intros k acc; simpl; [lia|].
  rewrite IH, weight_tally_add.
  destruct (String.eqb k x); simpl; lia.
Qed.

Lemma tally_add_keys k acc :
  map fst (tally_add k acc) = map fst acc
  \/ (~ In k (map fst acc) /\ map fst (tally_add k acc) = (map fst acc ++ [k])%list).
Proof.
  induction acc as [|[k' n] acc IH]; simpl.
  - right; split; [tauto|reflexivity].
  - destruct (String.eqb_spec k k') as [->|Hne]; simpl; [left; reflexivity|].
    destruct IH as [->|[Hnot ->]]; [left; reflexivity|].
    right; split; [intros [H|H]; [congruence|tauto]|reflexivity].
Qed.

Lemma tally_add_NoDup k acc :
  NoDup (map fst acc) -> NoDup (map fst (tally_add k acc)).
Proof.
  intros Hnd; destruct (tally_add_keys k acc) as [->|[Hnot ->]]; [exact Hnd|].
  apply NoDup_app; [exact Hnd|repeat constructor; intros []|].
  intros x Hx [<-|[]]; exact (Hnot Hx).
Qed.

Lemma tally_add_has k acc : In k (map fst (tally_add k acc)).
Proof.
  induction acc as [|[k' n] acc IH]; simpl; [left; reflexivity|].
  destruct (String.eqb_spec k k') as [->|Hne]; simpl; [left; reflexivity|right; exact IH].
Qed.

Lemma tally_add_keeps k x acc :
  In x (map fst acc) -> In x (map fst (tally_add k acc)).
Proof.
  intros Hin; destruct (tally_add_keys k acc) as [->|[_ ->]];
    [exact Hin|apply in_or_app; left; exact Hin].
Qed.

Lemma tally_add_from k x acc :
  In x (map fst (tally_add k acc)) -> x = k \/ In x (map fst acc).
Proof.
  destruct (tally_add_keys k acc) as [->|[_ ->]]; [tauto|].
  intros Hin; apply in_app_or in Hin; destruct Hin as [H|[<-|[]]]; tauto.
Qed.

(** The labels of a tally are the labels counted, each once. *)
Lemma tally_fold_keys l : forall acc,
  NoDup (map fst acc) ->
  let t := fold_left (fun a x => tally_add x a) l acc in
  NoDup (map fst t)
  /\ forall x, In x (map fst t) <-> In x l \/ In x (map fst acc).
Proof.
  induction l as [|k l IH]; intros acc Hnd; simpl.
  - split; [exact Hnd|intros x; tauto].
  - destruct (IH (tally_add k acc) (tally_add_NoDup k acc Hnd)) as [Hnd' Hkeys].
    split; [exact Hnd'|]; intros x; rewrite Hkeys; split.
    + intros [H|H]; [tauto|]. apply tally_add_from in H; destruct H; auto.
    + intros [[<-|H]|H]; auto.
      * right; apply tally_add_has.
      * right; apply tally_add_keeps; exact H.
Qed.

Lemma weight_of_entry k n acc :
  NoDup (map fst acc) -> In (k, n) acc -> weight k acc = n.
Proof.
  unfold weight; induction acc as [|[k' n'] acc IH]; simpl; [tauto|].
  intros Hnd Hin; inversion Hnd as [|? ? Hnot Hnd']; subst.
  destruct Hin as [[= -> ->]|Hin].
  - rewrite String.eqb_refl.
    assert (Hz : forall t, ~ In k (map fst t) ->
              list_sum (map (fun e : string * nat =>
                               if String.eqb k (fst e) then snd e else 0) t) = 0).
    { induction t as [|[a b] t IHt]; simpl; [reflexivity|]; intros Hn.
      destruct (String.eqb_spec k a) as [->|_]; [tauto|]. apply IHt; tauto. }
    rewrite (Hz acc Hnot); lia.
  - destruct (String.eqb_spec k k') as [->|_].
    + elim Hnot; apply (in_map fst) in Hin; exact Hin.
    + rewrite (IH Hnd' Hin); reflexivity.
Qed.

(** A tally holds, for each label that occurs, how often it occurs. *)
Lemma tally_spec l k n :
  In (k, n) (tally l) -> In k l /\ n = occurrences k l.
Proof.
  intros Hin; unfold tally in *.
  destruct (tally_fold_keys l [] (NoDup_nil _)) as [Hnd Hkeys]; simpl in *.
  split.
  - apply (in_map fst) in Hin; apply Hkeys in Hin; tauto.
  - rewrite <- (weight_of_entry k n _ Hnd Hin), weight_fold; reflexivity.
Qed.

Lemma tally_complete l k :
  In k l -> In (k, occurrences k l) (tally l).
Proof.
  intros Hin; unfold tally.
  destruct (tally_fold_keys l [] (NoDup_nil _)) as [Hnd Hkeys]; simpl in *.
  assert (Hk : In k (map fst (fold_left (fun a x => tally_add x a) l [])))
    by (apply Hkeys; left; exact Hin).
  apply in_map_iff in Hk; destruct Hk as [[k' n] [Hfst Hin']]; simpl in Hfst; subst k'.
  destruct (tally_spec l k n Hin') as [_ ->]; exact Hin'.
Qed.

Lemma insert_desc_In x y l : In y (insert_desc x l) <-> y = x \/ In y l.
Proof.
  induction l as [|z l IH]; simpl; [intuition|].
  destruct (Nat.ltb (snd x) (snd z)); simpl; [rewrite IH|]; intuition.
Qed.

(** Sorting the tally keeps its entries. *)
Lemma value_counts_In l y : In y (value_counts l) <-> In y (tally l).
Proof.
  unfold value_counts; induction (tally l) as [|x t IH]; simpl; [tauto|].
  rewrite insert_desc_In, IH; intuition.
Qed.

Lemma fold_best t : forall x,
  let b := fold_left (fun best y : string * nat =>
                        if Nat.ltb (snd best) (snd y) then y else best) t x in
  In b (x :: t) /\ forall y, In y (x :: t) -> snd y <= snd b.
Proof.
  induction t as [|z t IH]; intros x; simpl.
  - split; [left; reflexivity|intros y [<-|[]]; lia].
  - set (x' := if Nat.ltb (snd x) (snd z) then z else x).
    destruct (IH x') as [Hin Hmax]; simpl in Hin, Hmax.
    assert (Hx : snd x <= snd x' /\ snd z <= snd x' /\ (x' = x \/ x' = z)).
    { subst x'; destruct (Nat.ltb_spec (snd x) (snd z)); repeat split; auto; lia. }
    destruct Hx as [Hx [Hz Hor]].
    pose proof (Hmax x' (or_introl eq_refl)) as Hb.
    split.
    + destruct Hin as [Hin|Hin]; [|right; right; exact Hin].
      rewrite <- Hin; destruct Hor as [->| ->]; [left|right; left]; reflexivity.
    + intros y [<-|[<-|Hy]]; [lia|lia|apply Hmax; right; exact Hy].
Qed.

(** [idxmax] returns a label of greatest count. *)
Lemma idxmax_greatest vc :
  vc <> [] ->
  exists g n, idxmax vc = Ok g /\ In (g, n) vc
              /\ forall k m, In (k, m) vc -> m <= n.
Proof.
  destruct vc as [|x t]; [congruence|]; intros _; simpl.
  destruct (fold_best t x) as [Hin Hmax]; simpl in Hin, Hmax.
  set (b := fold_left _ t x) in *.
  exists (fst b), (snd b); split; [reflexivity|].
  split; [rewrite <- surjective_pairing; exact Hin|].
  intros k m Hk; exact (Hmax (k, m) Hk).
Qed.

Lemma genre_entries_guard f :
  genre_entries f <> [] ->
  Py.truthy f && existsb (fun r => Py.truthy (genre_list r)) f = true.
Proof.
  induction f as [|r f IH]; [intros H; elim H; reflexivity|].
  rewrite genre_entries_cons; intros Hne; simpl.
  destruct (genre_list r) as [|g gl] eqn:Hg; simpl; [|reflexivity].
  assert (Hr : genre_entries [r] = []) by (unfold genre_entries; simpl; rewrite Hg; reflexivity).
  rewrite Hr in Hne; simpl in Hne.
  specialize (IH Hne); apply andb_true_iff in IH; tauto.
Qed.

(** X25.  Where the subset has a genre entry that is not the empty text,
    the metric is an entry that no other entry outnumbers. *)
Theorem top_genre_most_frequent f :
  genre_entries f <> [] ->
  exists g, top_genre f = Ok g
            /\ In g (genre_entries f)
            /\ forall k, occurrences k (genre_entries f)
                         <= occurrences g (genre_entries f).
Proof.
  intros Hne; unfold top_genre; rewrite (genre_entries_guard f Hne).
  set (l := genre_entries f) in *.
  assert (Hvc : value_counts l <> []).
  { destruct l as [|x l']; [congruence|].
    intros Hnil; pose proof (tally_complete (x :: l') x (or_introl eq_refl)) as Hin.
    apply value_counts_In in Hin; rewrite Hnil in Hin; destruct Hin. }
  destruct (idxmax_greatest _ Hvc) as [g [n [-> [Hin Hmax]]]].
  apply value_counts_In, tally_spec in Hin; destruct Hin as [Hg ->].
  exists g; split; [reflexivity|split; [exact Hg|]].
  intros k; destruct (in_dec string_dec k l) as [Hk|Hk].
  - apply (Hmax k), value_counts_In, tally_complete; exact Hk.
  - assert (Hz : occurrences k l = 0); [|lia].
    unfold occurrences; destruct (filter (String.eqb k) l) as [|y t] eqn:Hf; [reflexivity|].
    assert (Hy : In y (filter (String.eqb k) l)) by (rewrite Hf; left; reflexivity).
    apply filter_In in Hy; destruct Hy as [Hy Heq].
    apply String.eqb_eq in Heq; subst; tauto.
Qed.

(** No loaded row has an empty [genre_list]: the guard of line 200 only
    tests whether the subset has rows. *)
Lemma loaded_genre_list_not_nil td tn has col raw :
  genre_list (load_row td tn has col raw) <> [].
Proof.
  simpl; pose proof (split_not_nil "," (fillna "" (raw_listed_in raw))) as H.
  destruct (Py.split "," _); [congruence|discriminate].
Qed.

Lemma top_genre_loaded td tn has raws :
  raws <> [] ->
  top_genre (load_data td tn has raws) =
  idxmax (value_counts (genre_entries (load_data td tn has raws))).
Proof.
  unfold top_genre, load_data; destruct raws as [|raw raws]; [congruence|].
  intros _; simpl map; cbn [Py.truthy existsb andb].
  pose proof (loaded_genre_list_not_nil td tn has
                (map date_text (raw :: raws)) raw) as Hnn.
  destruct (genre_list _) as [|g gl]; [congruence|reflexivity].
Qed.

(** C9, on the code.  On a non-empty subset in which no row has genre text
    the metric is not the placeholder: every [genre_list] is [[""]], which is
    true as a boolean, so the guard of line 200 passes, the count is taken
    over no entry at all and [idxmax] raises [ValueError]. *)
Theorem top_genre_raises_without_genre_text :
  forall td tn has (raws : list RawRow),
    raws <> [] ->
    (forall raw, In raw raws -> raw_listed_in raw = None) ->
    top_genre (load_data td tn has raws) = Raise ValueError.
Proof.
  intros td tn has raws Hne Habs; unfold top_genre, load_data.
  rewrite genre_entries_absent by exact Habs.
  destruct raws as [|raw raws]; [congruence|].
  simpl; rewrite (Habs raw (or_introl eq_refl)); reflexivity.
Qed.

(** ** Free-text search *)

Lemma isspace_lower_char c : Py.isspace (Py.lower_char c) = Py.isspace c.
Proof. destruct c as [[] [] [] [] [] [] [] []]; reflexivity. Qed.



Lemma filter_selections_with_query df st q :
  filter_selections df (with_query st q) = filter_selections df st.
Proof. reflexivity. Qed.



(** ** The sample engine *)





(** ** Instances on the sample table *)

(** C1 as stated fails: with only the type set selected and the full year
    range, the Movie row without [date_added] is dropped although its type is
    selected. *)
Lemma type_only_full_range_counterexample :
  let df := Sample.df in
  let st := Sample.state (ymin df, ymax df) ["Movie"] "" in
  (type_sel st <> [] /\ country_sel st = [] /\ genre_sel st = []
   /\ rating_sel st = [] /\ query st = ""
   /\ year_range st = (ymin df, ymax df))
  /\ apply_filter Sample.re_compile df st
     <> Ok (filter (fun r => Py.isin (type r) (type_sel st)) df).
Proof.
  cbv zeta; split.
  - repeat split; discriminate.
  - vm_compute; discriminate.
Qed.

Lemma type_only_full_range_witness :
  let df := Sample.df in
  let st := Sample.state (ymin df, ymax df) ["Movie"] "" in
  apply_filter Sample.re_compile df st =
  Ok (filter (fun r => Py.isin (type r) (type_sel st) && notna (time_base df r)) df).
Proof.
  cbv zeta; apply type_only_full_range_result;
    solve [discriminate | reflexivity].
Defined.

Lemma genre_list_of_absent_listed_in_witness :
  raw_listed_in Sample.raw2 = None
  /\ genre_list (load_row Sample.to_datetime Sample.to_numeric true [] Sample.raw2)
     = [""].
Proof.
  split; [reflexivity|].
  apply (genre_list_of_absent_listed_in
           Sample.to_datetime Sample.to_numeric true [] Sample.raw2); reflexivity.
Defined.



Lemma absent_time_base_excluded_witness :
  let r := load_row Sample.to_datetime Sample.to_numeric true
             (map date_text Sample.raws) Sample.raw2 in
  In r Sample.df
  /\ time_base Sample.df r = None
  /\ ~ In r (base Sample.df (Sample.state (1900, 2100)%Z [] "")).
Proof.
  cbv zeta; split; [right; left; reflexivity|].
  split; [reflexivity|].
  exact (proj1 (absent_time_base_excluded Sample.re_compile Sample.df
                  (Sample.state (1900, 2100)%Z [] "")
                  (load_row Sample.to_datetime Sample.to_numeric true
                     (map date_text Sample.raws) Sample.raw2)
                  eq_refl)).
Defined.

Lemma year_month_added_together_witness :
  let r := load_row Sample.to_datetime Sample.to_numeric true
             (map date_text Sample.raws) Sample.raw1 in
  (forall c, Sample.to_datetime c "nan" = None)
  /\ (year_added r = None <-> month_added r = None)
  /\ (forall d, date_added r = Some d ->
        year_added r = Some (year d) /\ month_added r = Some (month d)).
Proof.
  cbv zeta.
  assert (Hnan : forall c, Sample.to_datetime c "nan" = None) by reflexivity.
  pose proof (year_month_added_together Sample.to_datetime Sample.to_numeric true
                (map date_text Sample.raws) Sample.raw1 Hnan) as [H1 [_ [_ H4]]].
  split; [exact Hnan|split; [exact H1|exact H4]].
Defined.

Lemma duration_columns_witness :
  let r := load_row Sample.to_datetime Sample.to_numeric true [] Sample.raw1 in
  let r3 := load_row Sample.to_datetime Sample.to_numeric true [] Sample.raw3 in
  (raw_type Sample.raw1 = Some "Movie"
   /\ raw_duration Sample.raw1 = Some ("90" ++ " min")
   /\ (Py.int_of_digits "90" < 2 ^ 53)%Z
   /\ movie_minutes r = Some (Finite 90)
   /\ seasons r = None)
  /\ (raw_type Sample.raw3 = Some "TV Show"
      /\ raw_duration Sample.raw3 = Some ("3" ++ " Seasons")
      /\ seasons r3 = Some (Finite 3)
      /\ movie_minutes r3 = None).
Proof.
  cbv zeta; split.
  - split; [reflexivity|split; [reflexivity|split; [reflexivity|]]].
    destruct (proj1 (duration_columns Sample.to_datetime Sample.to_numeric true []
                       Sample.raw1 "90" ltac:(discriminate) eq_refl)
                    eq_refl eq_refl) as [_ [Hs Hm]].
    split; [exact (Hm eq_refl)|exact Hs].
  - split; [reflexivity|split; [reflexivity|]].
    destruct (proj1 (proj2 (duration_columns Sample.to_datetime Sample.to_numeric
                              true [] Sample.raw3 "3" ltac:(discriminate) eq_refl))
                    eq_refl (or_intror eq_refl)) as [_ [Hm Hs]].
    split; [exact (Hs eq_refl)|exact Hm].
Defined.

Lemma country_list_spec_witness :
  country_list (load_row Sample.to_datetime Sample.to_numeric true []
                  Sample.raw1)
  = ["United States"; "France"]
  /\ exists pieces,
       Py.join "," pieces = "United States, France"
       /\ Forall (fun p => ~ In ","%char (list_ascii_of_string p)) pieces
       /\ Forall2 trimmed_of pieces
            (country_list (load_row Sample.to_datetime Sample.to_numeric true []
                             Sample.raw1)).
Proof.
  split; [reflexivity|].
  exact (proj1 (country_list_spec Sample.to_datetime Sample.to_numeric true []
                  Sample.raw1)).
Defined.

(** C8 as stated fails: for the well-formed Movie duration
    ["9007199254740993 min"] the column holds the float64
    9007199254740992, not the extracted integer. *)
Lemma duration_columns_counterexample :
  let raw := Sample.raw "Movie" "Long" None None "2020"
               (Some "9007199254740993 min") None in
  let r := load_row Sample.to_datetime Sample.to_numeric true [] raw in
  raw_type raw = Some "Movie"
  /\ raw_duration raw = Some ("9007199254740993" ++ " min")
  /\ Py.int_of_digits "9007199254740993" = 9007199254740993%Z
  /\ movie_minutes r = Some (Finite 9007199254740992)
  /\ movie_minutes r <> Some (Finite (Py.int_of_digits "9007199254740993")).
Proof.
  cbv zeta; repeat split; try (vm_compute; reflexivity).
  vm_compute; discriminate.
Qed.

Lemma top_genre_raises_without_genre_text_witness :
  [Sample.raw2] <> []
  /\ (forall raw, In raw [Sample.raw2] -> raw_listed_in raw = None)
  /\ top_genre (Sample.load [Sample.raw2]) = Raise ValueError.
Proof.
  assert (Habs : forall raw, In raw [Sample.raw2] -> raw_listed_in raw = None)
    by (intros raw [<-|[]]; reflexivity).
  split; [discriminate|split; [exact Habs|]].
  apply (top_genre_raises_without_genre_text
           Sample.to_datetime Sample.to_numeric true [Sample.raw2]);
    [discriminate|exact Habs].
Defined.



(** ** Scenarios on the sample table *)

Example scenario_movie_row :
  let r := load_row Sample.to_datetime Sample.to_numeric true
             (map date_text Sample.raws) Sample.raw1 in
  country_list r = ["United States"; "France"]
  /\ genre_list r = ["Comedies"]
  /\ movie_minutes r = Some (Finite 90)
  /\ seasons r = None
  /\ year_added r = Some 2021%Z
  /\ month_added r = Some 9%Z.
Proof. cbv zeta; repeat split; reflexivity. Qed.

Example scenario_country_missing :
  country_list (load_row Sample.to_datetime Sample.to_numeric true
                  (map date_text Sample.raws) Sample.raw2) = ["Unknown"].
Proof. reflexivity. Qed.

Example scenario_tv_shows_only :
  option_map (map title)
    (match apply_filter Sample.re_compile Sample.df
             (Sample.state (ymin Sample.df, ymax Sample.df) ["TV Show"] "") with
     | Ok f => Some f
     | Raise _ => None
     end) = Some ["The Crown"].
Proof. vm_compute; reflexivity. Qed.

Example scenario_query_without_hit :
  apply_filter Sample.re_compile Sample.df (Sample.state (2019, 2021)%Z [] "king")
  = Ok []
  /\ top_genre [] = Ok placeholder.
Proof. split; vm_compute; reflexivity. Qed.

Example split_examples :
  Py.split "," "a,,b," = ["a"; ""; "b"; ""]
  /\ Py.split "," "" = [""]
  /\ Py.strip "  a b  " = "a b"
  /\ Re.extract "min" "1 h 30min" = Some "30"
  /\ Re.extract "min" "90 minutes" = Some "90"
  /\ Re.extract "Season" "2 seasons" = None.
Proof. repeat split; reflexivity. Qed.

(** * Further properties of the script *)

(** ** Column names *)

Lemma lower_as_map s : Py.lower s = map_chars Py.lower_char s.
Proof. induction s as [|c r IH]; simpl; [reflexivity|rewrite IH; reflexivity]. Qed.

Lemma map_chars_compose g h s :
  map_chars g (map_chars h s) = map_chars (fun c => g (h c)) s.
Proof. induction s as [|c r IH]; simpl; [reflexivity|rewrite IH; reflexivity]. Qed.

Lemma map_chars_ext g h s :
  (forall c, g c = h c) -> map_chars g s = map_chars h s.
Proof.
  intros Hgh; induction s as [|c r IH]; simpl; [reflexivity|].
  rewrite IH, Hgh; reflexivity.
Qed.

Lemma normalize_as_map c :
  normalize_column c = map_chars normalize_char (Py.strip c).
Proof.
  unfold normalize_column; generalize (Py.strip c) as s.
  induction s as [|a r IH]; simpl; [reflexivity|].
  rewrite IH; reflexivity.
Qed.

Lemma normalize_char_idem c : normalize_char (normalize_char c) = normalize_char c.
Proof. destruct c as [[] [] [] [] [] [] [] []]; reflexivity. Qed.

Lemma normalize_char_keeps_space c :
  Py.isspace (normalize_char c) = true -> Py.isspace c = true.
Proof. destruct c as [[] [] [] [] [] [] [] []]; simpl; auto. Qed.

Lemma normalize_char_not_blank c : normalize_char c <> " "%char.
Proof. destruct c as [[] [] [] [] [] [] [] []]; discriminate. Qed.

Lemma normalize_char_lower c : Py.lower_char (normalize_char c) = normalize_char c.
Proof. destruct c as [[] [] [] [] [] [] [] []]; reflexivity. Qed.

Lemma map_chars_nonempty g s : map_chars g s = "" -> s = "".
Proof. destruct s; [reflexivity|discriminate]. Qed.

(** A character map that turns no other character into white space leaves a
    trimmed text trimmed. *)
Lemma lstrip_map_trimmed g s :
  (forall c, Py.isspace (g c) = true -> Py.isspace c = true) ->
  Py.lstrip s = s -> Py.lstrip (map_chars g s) = map_chars g s.
Proof.
  intros Hg; destruct s as [|c r]; simpl; [reflexivity|].
  destruct (Py.isspace c) eqn:Hc.
  - intros Hl; exfalso.
    pose proof (lstrip_head r) as Hh; rewrite Hl in Hh; congruence.
  - intros _; destruct (Py.isspace (g c)) eqn:Hgc; [|reflexivity].
    apply Hg in Hgc; congruence.
Qed.

Lemma rstrip_map_trimmed g s :
  (forall c, Py.isspace (g c) = true -> Py.isspace c = true) ->
  Py.rstrip s = s -> Py.rstrip (map_chars g s) = map_chars g s.
Proof.
  intros Hg; induction s as [|c r IH]; simpl; [reflexivity|].
  destruct (Py.rstrip r) as [|c' r'] eqn:Hr.
  - destruct (Py.isspace c) eqn:Hc; [discriminate|].
    intros [= <-]; simpl.
    destruct (Py.isspace (g c)) eqn:Hgc; [apply Hg in Hgc; congruence|reflexivity].
  - intros [= Hrr]; rewrite (IH Hrr).
    rewrite <- Hrr; reflexivity.
Qed.

Lemma strip_map_trimmed g s :
  (forall c, Py.isspace (g c) = true -> Py.isspace c = true) ->
  Py.strip (map_chars g (Py.strip s)) = map_chars g (Py.strip s).
Proof.
  intros Hg; destruct (strip_trimmed s) as [Hl Hr].
  unfold Py.strip at 1.
  rewrite (lstrip_map_trimmed g _ Hg Hl); apply rstrip_map_trimmed; assumption.
Qed.

(** X1.  Normalising a column name twice gives the same name as
    normalising it once. *)
Theorem normalize_column_idempotent :
  forall c, normalize_column (normalize_column c) = normalize_column c.
Proof.
  intros c; rewrite (normalize_as_map (normalize_column c)), (normalize_as_map c).
  rewrite (strip_map_trimmed normalize_char c normalize_char_keeps_space).
  rewrite map_chars_compose; apply map_chars_ext, normalize_char_idem.
Qed.

Lemma map_chars_Forall g (P : ascii -> Prop) s :
  (forall c, P (g c)) -> Forall P (list_ascii_of_string (map_chars g s)).
Proof.
  intros HP; induction s as [|c r IH]; simpl; constructor; auto.
Qed.

(** X2.  A normalised column name holds no blank and no upper-case
    letter, and has no white space at either end. *)
Theorem normalize_column_shape :
  forall c,
    Forall (fun a => a <> " "%char /\ Py.lower_char a = a)
           (list_ascii_of_string (normalize_column c))
    /\ Py.strip (normalize_column c) = normalize_column c.
Proof.
  intros c; rewrite normalize_as_map; split.
  - apply map_chars_Forall; intros a; split;
      [apply normalize_char_not_blank|apply normalize_char_lower].
  - apply strip_map_trimmed, normalize_char_keeps_space.
Qed.

Example normalize_column_examples :
  normalize_column "Date Added" = "date_added"
  /\ normalize_column "  Release Year " = "release_year"
  /\ normalize_column "listed_in" = "listed_in".
Proof. repeat split; reflexivity. Qed.

(** ** Slider bounds and initial range *)

Lemma col_min_le_max dmin dmax col :
  (dmin <= dmax)%Z -> (col_min dmin col <= col_max dmax col)%Z.
Proof.
  intros Hd; unfold col_min, col_max.
  destruct (dropna col) as [|x t]; [exact Hd|].
  pose proof (fold_min_le t x x (or_introl eq_refl)).
  pose proof (fold_max_ge t x x (or_introl eq_refl)).
  lia.
Qed.

(** X3.  For every table the lower slider bound is at most the upper
    one, whichever time base is active and also when no year is present. *)
Theorem ymin_le_ymax : forall df, (ymin df <= ymax df)%Z.
Proof.
  intros df; unfold ymin, ymax.
  destruct (use_year_added df); apply col_min_le_max; lia.
Qed.

(** X4.  The slider's initial range lies within the slider bounds, ends
    at the upper bound and spans at most eight years. *)
Theorem default_year_range_within_bounds :
  forall df,
    (ymin df <= fst (default_year_range df))%Z
    /\ (fst (default_year_range df) <= snd (default_year_range df))%Z
    /\ snd (default_year_range df) = ymax df
    /\ (snd (default_year_range df) - fst (default_year_range df) <= 8)%Z.
Proof.
  intros df; unfold default_year_range; simpl.
  assert (H : (ymin df <= ymax df)%Z)
    by (unfold ymin, ymax; destruct (use_year_added df);
        apply col_min_le_max; lia).
  repeat split; lia.
Qed.

(** ** Type and rating options *)

Lemma isin_In x l : Py.isin x l = true <-> In x l.
Proof.
  unfold Py.isin; rewrite existsb_exists; split.
  - intros [y [Hin Heq]]; apply String.eqb_eq in Heq; subst; exact Hin.
  - intros Hin; exists x; split; [exact Hin|apply String.eqb_refl].
Qed.

Lemma unique_In l x : In x (unique l) <-> In x l.
Proof.
  induction l as [|y l IH]; simpl; [tauto|].
  rewrite filter_In, IH; split.
  - intros [H|[H _]]; auto.
  - intros [H|H]; [auto|].
    destruct (String.eqb_spec y x) as [Heq|Hne]; [auto|right; auto].
Qed.

Lemma unique_NoDup l : NoDup (unique l).
Proof.
  induction l as [|y l IH]; simpl; constructor.
  - rewrite filter_In; intros [_ H]; rewrite String.eqb_refl in H; discriminate.
  - apply NoDup_filter; exact IH.
Qed.

Lemma insert_sorted_perm x l : Permutation (x :: l) (insert_sorted x l).
Proof.
  induction l as [|y l IH]; simpl; [reflexivity|].
  destruct (String.leb x y); [reflexivity|].
  rewrite perm_swap; constructor; exact IH.
Qed.

Lemma sorted_perm l : Permutation l (sorted l).
Proof.
  induction l as [|x l IH]; simpl; [constructor|].
  rewrite <- insert_sorted_perm; constructor; exact IH.
Qed.

Lemma insert_sorted_HdRel a x l :
  String.leb a x = true ->
  HdRel (fun u v => String.leb u v = true) a l ->
  HdRel (fun u v => String.leb u v = true) a (insert_sorted x l).
Proof.
  intros Hax Hal; destruct l as [|y l]; simpl; [constructor; exact Hax|].
  destruct (String.leb x y); constructor; [exact Hax|].
  inversion Hal; assumption.
Qed.

Lemma insert_sorted_Sorted x l :
  Sorted (fun u v => String.leb u v = true) l ->
  Sorted (fun u v => String.leb u v = true) (insert_sorted x l).
Proof.
  induction l as [|y l IH]; intros Hs; simpl.
  - repeat constructor.
  - destruct (String.leb x y) eqn:Hxy.
    + constructor; [exact Hs|constructor; exact Hxy].
    + inversion Hs as [|? ? Hs' Hhd]; subst.
      constructor; [apply IH; exact Hs'|].
      apply insert_sorted_HdRel; [|exact Hhd].
      destruct (String.leb_total x y) as [H|H]; congruence.
Qed.

Lemma sorted_Sorted l : Sorted (fun u v => String.leb u v = true) (sorted l).
Proof.
  induction l as [|x l IH]; simpl; [constructor|].
  apply insert_sorted_Sorted; exact IH.
Qed.

Lemma leb_neq_ltb u v : String.leb u v = true -> u <> v -> String.ltb u v = true.
Proof.
  unfold String.leb, String.ltb; intros Hle Hne.
  destruct (String.compare u v) eqn:Hc; [|reflexivity|discriminate].
  elim Hne; apply String.compare_eq_iff; exact Hc.
Qed.

(** A list in ascending order without repetition is strictly ascending. *)
Lemma Sorted_strict l :
  NoDup l ->
  Sorted (fun u v => String.leb u v = true) l ->
  Sorted (fun u v => String.ltb u v = true) l.
Proof.
  induction l as [|x l IH]; intros Hnd Hs; [constructor|].
  inversion Hnd as [|? ? Hnot Hnd']; inversion Hs as [|? ? Hs' Hhd]; subst.
  constructor; [apply IH; assumption|].
  destruct l as [|y l]; constructor.
  inversion Hhd; subst; apply leb_neq_ltb; [assumption|].
  intros ->; apply Hnot; left; reflexivity.
Qed.

Lemma sorted_unique_spec (vals : list string) :
  (forall x, In x (sorted (unique vals)) <-> In x vals)
  /\ NoDup (sorted (unique vals))
  /\ Sorted (fun u v => String.ltb u v = true) (sorted (unique vals)).
Proof.
  pose proof (sorted_perm (unique vals)) as Hp.
  assert (Hnd : NoDup (sorted (unique vals)))
    by (eapply Permutation_NoDup; [exact Hp|apply unique_NoDup]).
  split; [|split; [exact Hnd|apply Sorted_strict; [exact Hnd|apply sorted_Sorted]]].
  intros x; split; intros H.
  - apply unique_In; eapply Permutation_in; [symmetry; exact Hp|exact H].
  - eapply Permutation_in; [exact Hp|apply unique_In; exact H].
Qed.

Lemma types_and_ratings_options_aux df :
  (forall x, In x (types df) <-> exists r, In r df /\ type r = x)
  /\ (forall x, In x (rating_options df) <-> exists r, In r df /\ rating r = x).
Proof.
  unfold types, rating_options; split; intros x.
  - rewrite (proj1 (sorted_unique_spec (map type df))), in_map_iff.
    split; intros [r [H1 H2]]; exists r; tauto.
  - rewrite (proj1 (sorted_unique_spec (map rating df))), in_map_iff.
    split; intros [r [H1 H2]]; exists r; tauto.
Qed.

(** X5.  The type options are exactly the types that occur in the table,
    each once, in strictly ascending order; the same holds of the rating
    options and the ratings. *)
Theorem types_and_ratings_options :
  forall df,
    ((forall x, In x (types df) <-> exists r, In r df /\ type r = x)
     /\ NoDup (types df)
     /\ Sorted (fun u v => String.ltb u v = true) (types df))
    /\ ((forall x, In x (rating_options df) <-> exists r, In r df /\ rating r = x)
        /\ NoDup (rating_options df)
        /\ Sorted (fun u v => String.ltb u v = true) (rating_options df)).
Proof.
  intros df; unfold types, rating_options; split.
  - destruct (sorted_unique_spec (map type df)) as [Hin [Hnd Hs]].
    split; [|split; assumption].
    intros x; rewrite Hin, in_map_iff; split; intros [r [H1 H2]]; exists r; tauto.
  - destruct (sorted_unique_spec (map rating df)) as [Hin [Hnd Hs]].
    split; [|split; assumption].
    intros x; rewrite Hin, in_map_iff; split; intros [r [H1 H2]]; exists r; tauto.
Qed.

Lemma filter_all {A : Type} (p : A -> bool) (l : list A) :
  (forall x, In x l -> p x = true) -> filter p l = l.
Proof.
  induction l as [|x l IH]; intros Hp; simpl; [reflexivity|].
  rewrite (Hp x (or_introl eq_refl)), IH; [reflexivity|].
  intros y Hy; apply Hp; right; exact Hy.
Qed.

(** X6.  Selecting every type option, which is the selector's default,
    drops no row of any view of the table; selecting every rating option
    drops none either. *)
Theorem all_options_keep_every_row :
  forall df f,
    incl f df ->
    filter_type (types df) f = f
    /\ filter_rating (rating_options df) f = f.
Proof.
  intros df f Hincl.
  destruct (types_and_ratings_options_aux df) as [Ht Hr].
  unfold filter_type, filter_rating; split.
  - destruct (Py.truthy (types df)); [|reflexivity].
    apply filter_all; intros r Hin; apply isin_In, Ht.
    exists r; split; [apply Hincl; exact Hin|reflexivity].
  - destruct (Py.truthy (rating_options df)); [|reflexivity].
    apply filter_all; intros r Hin; apply isin_In, Hr.
    exists r; split; [apply Hincl; exact Hin|reflexivity].
Qed.

(** ** More on the filter *)

Lemma filter_selections_from_base df st :
  filter_selections df st =
  filter_rating (rating_sel st)
    (filter_genre (genre_sel st)
      (filter_country (country_sel st) (base df st))).
Proof. reflexivity. Qed.

Lemma filter_when_incl {A : Type} (b : bool) (p : A -> bool) (l : list A) :
  incl (if b then filter p l else l) l.
Proof.
  destruct b; [|apply incl_refl].
  intros x Hx; apply filter_In in Hx; tauto.
Qed.

Lemma filter_selections_incl_base df st :
  incl (filter_selections df st) (base df st).
Proof.
  rewrite filter_selections_from_base.
  unfold filter_rating, filter_genre, filter_country.
  eapply incl_tran; [apply filter_when_incl|].
  eapply incl_tran; [apply filter_when_incl|].
  apply filter_when_incl.
Qed.

Lemma base_incl_df df st : incl (base df st) df.
Proof.
  rewrite base_row_ok; intros x Hx; apply filter_In in Hx; tauto.
Qed.

(** X7.  Every row of a final subset is a row of the base subset behind
    the option lists, and every row of the base subset is a row of the full
    table; the final subset has at most as many rows as the base subset. *)
Theorem final_subset_within_base :
  forall (re : string -> result (string -> bool)) df st f,
    apply_filter re df st = Ok f ->
    incl f (base df st)
    /\ incl (base df st) df
    /\ List.length f <= List.length (base df st).
Proof.
  intros re df st f Hf.
  split; [|split; [apply base_incl_df|]].
  - eapply incl_tran; [exact (filter_query_incl _ _ _ _ Hf)|].
    apply filter_selections_incl_base.
  - revert Hf; unfold apply_filter; rewrite filter_selections_row_ok, base_row_ok.
    unfold filter_query; destruct (Py.nonempty _).
    + destruct (re _) as [m|e]; simpl; [|discriminate].
      intros [= <-]; rewrite filter_twice; apply filter_length_mono.
      intros r _; unfold row_ok; rewrite !andb_true_iff; tauto.
    + intros [= <-]; apply filter_length_mono.
      intros r _; unfold row_ok; rewrite !andb_true_iff; tauto.
Qed.

Lemma isin_incl x (sel sel' : list string) :
  incl sel sel' -> Py.isin x sel = true -> Py.isin x sel' = true.
Proof. rewrite !isin_In; auto. Qed.

Lemma any_in_incl (sel sel' lst : list string) :
  incl sel sel' -> any_in sel lst = true -> any_in sel' lst = true.
Proof.
  unfold any_in; rewrite !existsb_exists; intros Hincl [c [Hc Hin]].
  exists c; split; [apply Hincl; exact Hc|exact Hin].
Qed.

Lemma sel_ok_widen (sel sel' : list string) hit hit' :
  sel <> [] -> (hit = true -> hit' = true) ->
  sel_ok sel hit = true -> sel_ok sel' hit' = true.
Proof.
  intros Hne Himp; rewrite (sel_ok_truthy sel hit Hne); intros H.
  unfold sel_ok; rewrite (Himp H); apply orb_true_r.
Qed.

Lemma widens_row_ok col st st' r :
  widens_selection st st' -> row_ok col st r = true -> row_ok col st' r = true.
Proof.
  intros Hw; destruct Hw as [sel Hne Hi|sel Hne Hi|sel Hne Hi|sel Hne Hi];
    unfold row_ok; simpl; rewrite !andb_true_iff;
    intros [[[[H1 H2] H3] H4] H5]; repeat split; try assumption.
  - eapply sel_ok_widen; [exact Hne| |exact H1]; apply isin_incl; exact Hi.
  - eapply sel_ok_widen; [exact Hne| |exact H3]; apply any_in_incl; exact Hi.
  - eapply sel_ok_widen; [exact Hne| |exact H4]; apply any_in_incl; exact Hi.
  - eapply sel_ok_widen; [exact Hne| |exact H5]; apply isin_incl; exact Hi.
Qed.

Lemma widens_query st st' : widens_selection st st' -> query st' = query st.
Proof. intros []; reflexivity. Qed.

(** X8.  Selecting more values in an already non-empty selection (types,
    countries, genres or ratings) never loses a row: when the first state
    yields a result, the widened state yields one with every row of the
    first and at least as many rows. *)
Theorem widening_keeps_rows :
  forall (re : string -> result (string -> bool)) df st st',
    widens_selection st st' ->
    forall f, apply_filter re df st = Ok f ->
    exists f', apply_filter re df st' = Ok f'
               /\ incl f f'
               /\ List.length f <= List.length f'.
Proof.
  intros re df st st' Hw f; unfold apply_filter.
  rewrite (widens_query _ _ Hw), !filter_selections_row_ok; unfold filter_query.
  assert (Hsel : forall r, row_ok (time_base df) st r = true ->
                           row_ok (time_base df) st' r = true)
    by (intros r; apply widens_row_ok; exact Hw).
  destruct (Py.nonempty (Py.strip (query st))).
  - destruct (re _) as [m|e]; simpl; [|discriminate].
    intros [= <-]; eexists; split; [reflexivity|]; rewrite !filter_twice; split.
    + intros r Hr; apply filter_In in Hr; apply filter_In.
      rewrite andb_true_iff in *; intuition.
    + apply filter_length_mono; intros r _; rewrite !andb_true_iff; intuition.
  - intros [= <-]; eexists; split; [reflexivity|]; split.
    + intros r Hr; apply filter_In in Hr; apply filter_In; intuition.
    + apply filter_length_mono; intros r _; apply Hsel.
Qed.

Lemma lstrip_lower s : Py.lstrip (Py.lower s) = Py.lower (Py.lstrip s).
Proof.
  induction s as [|c r IH]; simpl; [reflexivity|].
  rewrite isspace_lower_char; destruct (Py.isspace c); [exact IH|reflexivity].
Qed.

Lemma rstrip_lower s : Py.rstrip (Py.lower s) = Py.lower (Py.rstrip s).
Proof.
  induction s as [|c r IH]; simpl; [reflexivity|].
  rewrite IH, isspace_lower_char.
  destruct (Py.rstrip r); simpl; [destruct (Py.isspace c)|]; reflexivity.
Qed.

(** Stripping and lower-casing commute. *)
Lemma strip_lower s : Py.strip (Py.lower s) = Py.lower (Py.strip s).
Proof. unfold Py.strip; rewrite lstrip_lower, rstrip_lower; reflexivity. Qed.

Lemma nonempty_lower s : Py.nonempty (Py.lower s) = Py.nonempty s.
Proof. destruct s; reflexivity. Qed.

(** X9.  The search depends on the query only through its lower-cased,
    stripped form: two queries that agree on it (differing in letter case or
    surrounding white space) give the same filter outcome. *)
Theorem query_normal_form :
  forall (re : string -> result (string -> bool)) df st q1 q2,
    Py.strip (Py.lower q1) = Py.strip (Py.lower q2) ->
    apply_filter re df (with_query st q1) = apply_filter re df (with_query st q2).
Proof.
  intros re df st q1 q2 Heq; unfold apply_filter.
  rewrite !filter_selections_with_query; simpl query; unfold filter_query.
  rewrite <- (nonempty_lower (Py.strip q1)), <- (nonempty_lower (Py.strip q2)).
  rewrite <- !strip_lower, Heq; reflexivity.
Qed.

Lemma between_inverted x lo hi : (hi < lo)%Z -> between x lo hi = false.
Proof.
  intros Hlt; destruct x as [v|]; simpl; [|reflexivity].
  destruct (Z.leb_spec lo v); simpl; [|reflexivity].
  apply Z.leb_gt; lia.
Qed.

Lemma filter_none {A : Type} (p : A -> bool) (l : list A) :
  (forall x, In x l -> p x = false) -> filter p l = [].
Proof.
  induction l as [|x l IH]; intros Hp; simpl; [reflexivity|].
  rewrite (Hp x (or_introl eq_refl)); apply IH.
  intros y Hy; apply Hp; right; exact Hy.
Qed.

Lemma incl_nil_eq {A : Type} (l : list A) : incl l [] -> l = [].
Proof. destruct l as [|x l]; [reflexivity|]; intros H; destruct (H x (or_introl eq_refl)). Qed.

(** Nothing passes when no row passes the range check. *)
Lemma empty_range_empty_views re df st :
  (forall r, In r df ->
     between (time_base df r) (fst (year_range st)) (snd (year_range st)) = false) ->
  base df st = []
  /\ filter_selections df st = []
  /\ forall f, apply_filter re df st = Ok f -> f = [].
Proof.
  intros Hout.
  assert (Hb : base df st = []).
  { rewrite base_row_ok; apply filter_none; intros r Hin.
    rewrite (Hout r Hin); apply andb_false_r. }
  assert (Hs : filter_selections df st = []).
  { apply incl_nil_eq; rewrite <- Hb; apply filter_selections_incl_base. }
  split; [exact Hb|split; [exact Hs|]].
  intros f Hf; apply incl_nil_eq; rewrite <- Hs.
  exact (filter_query_incl _ _ _ _ Hf).
Qed.

(** X10.  A year range whose upper end lies below its lower end selects
    nothing: the base subset and every final subset are empty. *)
Theorem inverted_year_range_selects_nothing :
  forall (re : string -> result (string -> bool)) df st,
    (snd (year_range st) < fst (year_range st))%Z ->
    base df st = []
    /\ filter_selections df st = []
    /\ forall f, apply_filter re df st = Ok f -> f = [].
Proof.
  intros re df st Hinv; apply empty_range_empty_views.
  intros r _; apply between_inverted; exact Hinv.
Qed.

Lemma dropna_all_absent (f : Row -> option Z) df :
  (forall r, In r df -> f r = None) -> dropna (map f df) = [].
Proof.
  induction df as [|r df IH]; intros Habs; [reflexivity|].
  unfold dropna in *; simpl; rewrite (Habs r (or_introl eq_refl)); simpl.
  apply IH; intros r' Hin; apply Habs; right; exact Hin.
Qed.

(** X11.  When no row of the table has a [year_added] or a
    [release_year], the slider bounds are the fixed years 1950 and 2021 and
    every filter state selects nothing. *)
Theorem no_year_information :
  forall (re : string -> result (string -> bool)) df st,
    (forall r, In r df -> year_added r = None /\ release_year r = None) ->
    ymin df = 1950%Z /\ ymax df = 2021%Z
    /\ base df st = []
    /\ forall f, apply_filter re df st = Ok f -> f = [].
Proof.
  intros re df st Habs.
  assert (Hu : use_year_added df = false)
    by (apply use_year_added_false; intros r Hin; apply Habs; exact Hin).
  assert (Hcol : dropna (map release_year df) = [])
    by (apply dropna_all_absent; intros r Hin; apply Habs; exact Hin).
  unfold ymin, ymax, col_min, col_max; rewrite Hu, Hcol.
  split; [reflexivity|split; [reflexivity|]].
  destruct (empty_range_empty_views re df st) as [Hb [_ Hf]]; [|split; assumption].
  intros r Hin; unfold time_base; rewrite Hu.
  rewrite (proj2 (Habs r Hin)); reflexivity.
Qed.

(** ** Frequency counts *)

Lemma tally_add_sum k acc :
  list_sum (map snd (tally_add k acc)) = S (list_sum (map snd acc)).
Proof.
  induction acc as [|[k' n] acc IH]; simpl; [reflexivity|].
  destruct (String.eqb k k'); simpl; [reflexivity|rewrite IH; lia].
Qed.

Lemma tally_fold_sum l : forall acc,
  list_sum (map snd (fold_left (fun a x => tally_add x a) l acc)) =
  list_sum (map snd acc) + List.length l.
Proof.
  induction l as [|x l IH]; intros acc; simpl; [lia|].
  rewrite IH, tally_add_sum; lia.
Qed.

Lemma insert_desc_perm x l : Permutation (x :: l) (insert_desc x l).
Proof.
  induction l as [|y l IH]; simpl; [reflexivity|].
  destruct (Nat.ltb (snd x) (snd y)); [|reflexivity].
  rewrite perm_swap; constructor; exact IH.
Qed.

(** The count holds the entries of the tally, reordered. *)
Lemma value_counts_perm l : Permutation (tally l) (value_counts l).
Proof.
  unfold value_counts; induction (tally l) as [|x t IH]; simpl; [constructor|].
  rewrite <- insert_desc_perm; constructor; exact IH.
Qed.

Lemma insert_desc_HdRel a x l :
  snd x <= snd a ->
  HdRel (fun u v : string * nat => snd v <= snd u) a l ->
  HdRel (fun u v : string * nat => snd v <= snd u) a (insert_desc x l).
Proof.
  intros Hax Hal; destruct l as [|y l]; simpl; [constructor; exact Hax|].
  destruct (Nat.ltb (snd x) (snd y)); constructor; [|exact Hax].
  inversion Hal; assumption.
Qed.

Lemma insert_desc_Sorted x l :
  Sorted (fun u v : string * nat => snd v <= snd u) l ->
  Sorted (fun u v : string * nat => snd v <= snd u) (insert_desc x l).
Proof.
  induction l as [|y l IH]; intros Hs; simpl.
  - repeat constructor.
  - destruct (Nat.ltb_spec (snd x) (snd y)) as [Hlt|Hge].
    + inversion Hs as [|? ? Hs' Hhd]; subst.
      constructor; [apply IH; exact Hs'|].
      apply insert_desc_HdRel; [lia|exact Hhd].
    + constructor; [exact Hs|constructor; exact Hge].
Qed.

Lemma occurrences_positive k l : In k l -> 1 <= occurrences k l.
Proof.
  intros Hin; unfold occurrences.
  assert (H : In k (filter (String.eqb k) l))
    by (apply filter_In; split; [exact Hin|apply String.eqb_refl]).
  destruct (filter (String.eqb k) l); [destruct H|simpl; lia].
Qed.

Lemma value_counts_sum l :
  list_sum (map snd (value_counts l)) = List.length l.
Proof.
  rewrite <- (Permutation_list_sum
                (Permutation_map snd (value_counts_perm l))).
  unfold tally; rewrite tally_fold_sum; reflexivity.
Qed.

Lemma value_counts_labels_NoDup l : NoDup (map fst (value_counts l)).
Proof.
  eapply Permutation_NoDup; [exact (Permutation_map fst (value_counts_perm l))|].
  exact (proj1 (tally_fold_keys l [] (NoDup_nil _))).
Qed.

(** X12.  In a frequency count the counts add up to the number of
    entries counted, they come in non-increasing order, no label is listed
    twice, and each listed count is the number of occurrences of its label,
    which is at least one. *)
Theorem value_counts_shape :
  forall l,
    list_sum (map snd (value_counts l)) = List.length l
    /\ Sorted (fun u v : string * nat => snd v <= snd u) (value_counts l)
    /\ NoDup (map fst (value_counts l))
    /\ forall k n, In (k, n) (value_counts l) ->
         In k l /\ n = occurrences k l /\ 1 <= n.
Proof.
  intros l; split; [|split; [|split]].
  - apply value_counts_sum.
  - unfold value_counts; induction (tally l) as [|x t IH]; simpl;
      [constructor|apply insert_desc_Sorted; exact IH].
  - apply value_counts_labels_NoDup.
  - intros k n Hin; apply value_counts_In, tally_spec in Hin.
    destruct Hin as [Hk ->]; split; [exact Hk|split; [reflexivity|]].
    apply occurrences_positive; exact Hk.
Qed.

(** ** Option lists *)

Lemma dropna_app {A : Type} (a b : list (option A)) :
  dropna (a ++ b) = (dropna a ++ dropna b)%list.
Proof. unfold dropna; apply flat_map_app. Qed.

Lemma explode_cons col r b :
  explode col (r :: b) = (explode col [r] ++ explode col b)%list.
Proof. unfold explode; simpl; rewrite app_nil_r; reflexivity. Qed.

Lemma counted_present es :
  dropna (map replace_empty_unknown (map Some es)) =
  map (fun e => if Py.nonempty e then e else "Unknown") es.
Proof.
  induction es as [|e es IH]; [reflexivity|].
  simpl map; change (dropna (?x :: ?t)) with
    ((match x with Some v => [v] | None => [] end) ++ dropna t)%list.
  rewrite IH; destruct e; reflexivity.
Qed.

(** the label under which an entry of a list column is counted *)
Lemma counted_entries_one col r :
  dropna (map replace_empty_unknown (explode col [r])) =
  map (fun e => if Py.nonempty e then e else "Unknown") (col r).
Proof.
  unfold explode; simpl; rewrite app_nil_r.
  destruct (col r) as [|e l]; [reflexivity|].
  apply (counted_present (e :: l)).
Qed.

Lemma counted_entries col b :
  dropna (map replace_empty_unknown (explode col b)) =
  flat_map (fun r => map (fun e => if Py.nonempty e then e else "Unknown") (col r)) b.
Proof.
  induction b as [|r b IH]; [reflexivity|].
  rewrite explode_cons, map_app, dropna_app, IH, counted_entries_one; reflexivity.
Qed.

(** X13.  The counts behind an option list add up to the number of list
    elements of the column over the rows of the subset (one unit per
    element, not per row). *)
Theorem option_counts_total :
  forall (col : Row -> list string) (b : list Row),
    list_sum (map snd (option_counts col b)) =
    list_sum (map (fun r => List.length (col r)) b).
Proof.
  intros col b; unfold option_counts.
  rewrite value_counts_sum, counted_entries.
  induction b as [|r b IH]; simpl; [reflexivity|].
  rewrite length_app, length_map, IH; reflexivity.
Qed.

Lemma firstn_In {A : Type} n (l : list A) x : In x (firstn n l) -> In x l.
Proof.
  intros H; rewrite <- (firstn_skipn n l); apply in_or_app; left; exact H.
Qed.

Lemma firstn_NoDup {A : Type} n (l : list A) : NoDup l -> NoDup (firstn n l).
Proof.
  intros H; rewrite <- (firstn_skipn n l) in H.
  exact (NoDup_app_remove_r _ _ H).
Qed.

(** An option of a selector labels an element of the column in some row of
    the base subset. *)
Lemma option_label_origin col b c :
  In c (map fst (option_counts col b)) ->
  exists r e, In r b /\ In e (col r)
              /\ c = (if Py.nonempty e then e else "Unknown").
Proof.
  intros Hin; apply in_map_iff in Hin; destruct Hin as [[k n] [Hk Hin]].
  simpl in Hk; subst k; unfold option_counts in Hin.
  apply value_counts_In, tally_spec in Hin; destruct Hin as [Hc _].
  rewrite counted_entries in Hc; apply in_flat_map in Hc.
  destruct Hc as [r [Hr He]]; apply in_map_iff in He.
  destruct He as [e [Hce He]]; exists r, e; auto.
Qed.

Lemma any_in_single c lst : In c lst -> any_in [c] lst = true.
Proof.
  intros Hin; unfold any_in; simpl; rewrite (proj2 (isin_In c lst) Hin); reflexivity.
Qed.

Lemma selections_country_only df st sel :
  genre_sel st = [] -> rating_sel st = [] ->
  filter_selections df (with_country_sel st sel) =
  filter_country sel (base df st).
Proof.
  intros Hg Hr; rewrite filter_selections_from_base; simpl.
  rewrite Hg, Hr; reflexivity.
Qed.

Lemma selections_genre_only df st sel :
  country_sel st = [] -> rating_sel st = [] ->
  filter_selections df (with_genre_sel st sel) =
  filter_genre sel (base df st).
Proof.
  intros Hc Hr; rewrite filter_selections_from_base; simpl.
  rewrite Hc, Hr; reflexivity.
Qed.

Lemma filter_query_blank re q f :
  Py.strip q = "" -> filter_query re q f = Ok f.
Proof. intros H; unfold filter_query; rewrite H; reflexivity. Qed.

(** X14.  The country selector offers at most 100 options, none twice.
    Choosing one of them other than ["Unknown"], with no genre or rating
    selected and a blank query, leaves at least one row. *)
Theorem country_option_selects_a_row :
  forall (re : string -> result (string -> bool)) df st c,
    genre_sel st = [] -> rating_sel st = [] -> Py.strip (query st) = "" ->
    In c (country_options df st) -> c <> "Unknown" ->
    List.length (country_options df st) <= 100
    /\ NoDup (country_options df st)
    /\ exists f, apply_filter re df (with_country_sel st [c]) = Ok f /\ f <> [].
Proof.
  intros re df st c Hg Hr Hq Hin Hne; unfold country_options in *.
  split; [apply firstn_le_length|].
  split; [apply firstn_NoDup, value_counts_labels_NoDup|].
  apply firstn_In, option_label_origin in Hin.
  destruct Hin as [r [e [Hrb [He Hc]]]].
  destruct e as [|a e']; [elim Hne; exact Hc|]; simpl in Hc; subst c.
  unfold apply_filter; simpl query.
  rewrite (selections_country_only df st _ Hg Hr), (filter_query_blank _ _ _ Hq).
  eexists; split; [reflexivity|].
  assert (Hrow : In r (filter_country [String a e'] (base df st))).
  { unfold filter_country; simpl Py.truthy; cbv iota.
    apply filter_In; split; [exact Hrb|apply any_in_single; exact He]. }
  intros Hnil; rewrite Hnil in Hrow; destruct Hrow.
Qed.

(** X15.  The genre selector offers at most 100 options, none twice and
    none of them empty or ["Unknown"].  Choosing any one of them, with no
    country or rating selected and a blank query, leaves at least one row. *)
Theorem genre_option_selects_a_row :
  forall (re : string -> result (string -> bool)) df st g,
    country_sel st = [] -> rating_sel st = [] -> Py.strip (query st) = "" ->
    In g (genre_options df st) ->
    List.length (genre_options df st) <= 100
    /\ NoDup (genre_options df st)
    /\ Forall (fun x => x <> "" /\ x <> "Unknown") (genre_options df st)
    /\ exists f, apply_filter re df (with_genre_sel st [g]) = Ok f /\ f <> [].
Proof.
  intros re df st g Hc Hr Hq Hin; unfold genre_options in *.
  split; [apply firstn_le_length|].
  split; [apply firstn_NoDup, NoDup_filter, value_counts_labels_NoDup|].
  split.
  { apply Forall_forall; intros x Hx; apply firstn_In, filter_In in Hx.
    destruct Hx as [_ Hx]; apply andb_true_iff in Hx; destruct Hx as [H1 H2].
    split; [intros ->; discriminate|intros ->; discriminate]. }
  apply firstn_In, filter_In in Hin; destruct Hin as [Hin Hok].
  apply andb_true_iff in Hok; destruct Hok as [_ Hunk].
  apply option_label_origin in Hin; destruct Hin as [r [e [Hrb [He Hg]]]].
  destruct e as [|a e']; [simpl in Hg; subst g; discriminate|]; simpl in Hg; subst g.
  unfold apply_filter; simpl query.
  rewrite (selections_genre_only df st _ Hc Hr), (filter_query_blank _ _ _ Hq).
  eexists; split; [reflexivity|].
  assert (Hrow : In r (filter_genre [String a e'] (base df st))).
  { unfold filter_genre; simpl Py.truthy; cbv iota.
    apply filter_In; split; [exact Hrb|apply any_in_single; exact He]. }
  intros Hnil; rewrite Hnil in Hrow; destruct Hrow.
Qed.

(** ** More on the top genre *)

Lemma genre_entries_text f g : In g (genre_entries f) -> g <> "".
Proof.
  unfold genre_entries, dropna; intros Hin.
  apply in_flat_map in Hin; destruct Hin as [x [Hx Hg]].
  apply in_map_iff in Hx; destruct Hx as [y [Hy _]].
  destruct x as [v|]; [|destruct Hg]; destruct Hg as [<-|[]].
  destruct y as [[|c s]|]; simpl in Hy; try discriminate.
  injection Hy as <-; discriminate.
Qed.

Lemma value_counts_nil_iff l : value_counts l = [] <-> l = [].
Proof.
  split; [|intros ->; reflexivity].
  intros Hnil; destruct l as [|x l]; [reflexivity|].
  pose proof (tally_complete (x :: l) x (or_introl eq_refl)) as Hin.
  apply value_counts_In in Hin; rewrite Hnil in Hin; destruct Hin.
Qed.

(** X16.  The metric raises only [ValueError], and exactly when some row
    has a non-empty [genre_list] while no genre entry other than the empty
    text is left to count; whenever it returns, the text it returns is not
    empty. *)
Theorem top_genre_outcomes :
  forall f,
    (top_genre f = Raise ValueError
       <-> existsb (fun r => Py.truthy (genre_list r)) f = true
           /\ genre_entries f = [])
    /\ (forall e, top_genre f = Raise e -> e = ValueError)
    /\ (forall g, top_genre f = Ok g -> g <> "").
Proof.
  intros f; unfold top_genre.
  assert (Hguard : Py.truthy f && existsb (fun r => Py.truthy (genre_list r)) f
                   = existsb (fun r => Py.truthy (genre_list r)) f)
    by (destruct f; reflexivity).
  rewrite Hguard; destruct (existsb _ f).
  - destruct (genre_entries f) as [|x l] eqn:He.
    + simpl; split; [tauto|split; [congruence|discriminate]].
    + assert (Hvc : value_counts (x :: l) <> [])
        by (rewrite value_counts_nil_iff; discriminate).
      destruct (idxmax_greatest _ Hvc) as [g [n [-> [Hin _]]]].
      split; [split; [discriminate|intros [_ H]; discriminate]|].
      split; [discriminate|].
      intros g' [= <-]; apply value_counts_In, tally_spec in Hin.
      apply (genre_entries_text f); rewrite He; tauto.
  - split; [split; [discriminate|intros [H _]; discriminate]|].
    split; [discriminate|intros g [= <-]; discriminate].
Qed.

Lemma fold_best_first t : forall x : string * nat,
  (forall y, In y t -> snd y <= snd x) ->
  fold_left (fun best y : string * nat =>
               if Nat.ltb (snd best) (snd y) then y else best) t x = x.
Proof.
  induction t as [|z t IH]; intros x Hle; simpl; [reflexivity|].
  destruct (Nat.ltb_spec (snd x) (snd z)) as [Hlt|_].
  - specialize (Hle z (or_introl eq_refl)); lia.
  - apply IH; intros y Hy; apply Hle; right; exact Hy.
Qed.

Lemma value_counts_Sorted l :
  Sorted (fun u v : string * nat => snd v <= snd u) (value_counts l).
Proof.
  unfold value_counts; induction (tally l) as [|x t IH]; simpl;
    [constructor|apply insert_desc_Sorted; exact IH].
Qed.

(** On a descending count [idxmax] is the first label. *)
Lemma idxmax_value_counts l x t :
  value_counts l = x :: t -> idxmax (value_counts l) = Ok (fst x).
Proof.
  intros Hvc; pose proof (value_counts_Sorted l) as Hs; rewrite Hvc in *.
  simpl; rewrite fold_best_first; [reflexivity|].
  apply Sorted_StronglySorted in Hs; [|intros a b c Hab Hbc; lia].
  inversion Hs as [|? ? _ Hall]; subst.
  intros y Hy; rewrite Forall_forall in Hall; apply Hall; exact Hy.
Qed.

(** X17.  The top-genres chart has at most 15 bars, in non-increasing
    order of count; where the subset has a genre entry to count, its first
    bar is the genre the metric shows. *)
Theorem top_genre_is_first_bar :
  forall f,
    List.length (gcounts f) <= 15
    /\ Sorted (fun u v : string * nat => snd v <= snd u) (gcounts f)
    /\ (genre_entries f <> [] ->
        exists g n rest, gcounts f = (g, n) :: rest /\ top_genre f = Ok g).
Proof.
  intros f; unfold gcounts; split; [apply firstn_le_length|split].
  - pose proof (value_counts_Sorted (genre_entries f)) as Hs.
    apply Sorted_StronglySorted in Hs; [|intros a b c Hab Hbc; lia].
    apply StronglySorted_Sorted.
    remember (value_counts (genre_entries f)) as vc eqn:Hvc; clear Hvc.
    generalize 15 as n; induction Hs as [|x l Hs IH Hall]; intros n.
    + rewrite firstn_nil; constructor.
    + destruct n as [|n]; [constructor|]; simpl; constructor; [apply IH|].
      apply Forall_forall; intros y Hy; apply firstn_In in Hy.
      rewrite Forall_forall in Hall; apply Hall; exact Hy.
  - intros Hne; unfold top_genre; rewrite (genre_entries_guard f Hne).
    destruct (value_counts (genre_entries f)) as [|[g n] t] eqn:Hvc;
      [apply value_counts_nil_iff in Hvc; congruence|].
    exists g, n, (firstn 14 t); split; [reflexivity|].
    rewrite <- Hvc; apply (idxmax_value_counts _ (g, n) t Hvc).
Qed.

(** ** Summary counts *)

(** X18.  The Movies and TV Shows counts together never exceed the total
    number of titles, and add up to it when every row is a Movie or a TV
    Show. *)
Theorem movies_and_shows_counts :
  forall f,
    movies f + shows f <= List.length f
    /\ ((forall r, In r f -> type r = "Movie" \/ type r = "TV Show") ->
        movies f + shows f = List.length f).
Proof.
  intros f; unfold movies, shows, count_type.
  induction f as [|r f [IHle IHeq]]; simpl; [split; reflexivity|].
  split.
  - destruct (String.eqb_spec (type r) "Movie") as [->|_]; simpl; [lia|].
    destruct (String.eqb (type r) "TV Show"); simpl; lia.
  - intros Hall.
    assert (IH : List.length (filter (fun r => String.eqb (type r) "Movie") f)
                 + List.length (filter (fun r => String.eqb (type r) "TV Show") f)
                 = List.length f)
      by (apply IHeq; intros r' Hin; apply Hall; right; exact Hin).
    destruct (Hall r (or_introl eq_refl)) as [-> | ->]; simpl; lia.
Qed.

(** ** More on the duration columns *)

Lemma star_consumed p s a b :
  In (a, b) (Re.star p s) -> forallb p (list_ascii_of_string a) = true.
Proof.
  revert a b; induction s as [|c r IH]; intros a b; simpl.
  - intros [[= <- <-]|[]]; reflexivity.
  - destruct (p c) eqn:Hc.
    + intros Hin; apply in_app_or in Hin; destruct Hin as [Hin|[[= <- <-]|[]]];
        [|reflexivity].
      apply in_map_iff in Hin; destruct Hin as [[a' b'] [[= <- <-] Hin]].
      simpl; rewrite Hc; exact (IH a' b' Hin).
    + intros [[= <- <-]|[]]; reflexivity.
Qed.

Lemma match_here_digits tok s d :
  Re.match_here tok s = Some d ->
  d <> "" /\ forallb Py.isdigit (list_ascii_of_string d) = true.
Proof.
  unfold Re.match_here; intros H.
  destruct (find _ _) as [t|] eqn:Hf; [|discriminate]; injection H as <-.
  apply find_some in Hf; destruct Hf as [Hin _].
  apply in_flat_map in Hin; destruct Hin as [[a b] [Hab Hin]]; simpl in Hin.
  destruct (Py.nonempty a) eqn:Hne; [|destruct Hin].
  apply in_map_iff in Hin; destruct Hin as [w [<- _]]; simpl.
  split; [intros ->; discriminate|exact (star_consumed _ _ _ _ Hab)].
Qed.

(** What the pattern captures is a non-empty run of digits. *)
Lemma extract_digits tok s d :
  Re.extract tok s = Some d ->
  d <> "" /\ forallb Py.isdigit (list_ascii_of_string d) = true.
Proof.
  induction s as [|c r IH]; rewrite extract_unfold;
    destruct (Re.match_here tok _) eqn:Hm;
    try (intros [= <-]; eapply match_here_digits; exact Hm).
  exact IH.
Qed.

Lemma digit_val_nonneg c : Py.isdigit c = true -> (0 <= Py.digit_val c <= 9)%Z.
Proof.
  unfold Py.isdigit, Py.digit_val; rewrite andb_true_iff, !N.leb_le; lia.
Qed.

Lemma int_of_digits_nonneg ds :
  forallb Py.isdigit (list_ascii_of_string ds) = true ->
  (0 <= Py.int_of_digits ds)%Z.
Proof.
  unfold Py.int_of_digits; intros Hds.
  assert (H : forall l acc, (0 <= acc)%Z -> forallb Py.isdigit l = true ->
                (0 <= fold_left (fun a c => (10 * a + Py.digit_val c)%Z) l acc)%Z).
  { induction l as [|c l IH]; intros acc Hacc Hl; [exact Hacc|].
    cbn [fold_left forallb] in *.
    apply andb_true_iff in Hl; destruct Hl as [Hc Hl].
    apply IH; [|exact Hl]. pose proof (digit_val_nonneg c Hc); lia. }
  apply H; [lia|exact Hds].
Qed.

(** The cast keeps a number that is not negative so. *)
Lemma float_of_int_nonneg n : (0 <= n)%Z -> float_nonneg (float_of_int n).
Proof.
  intros Hn; unfold float_of_int.
  destruct (Z.ltb_spec n (2 ^ 53)) as [_|Hbig]; [exact Hn|].
  set (e := (Z.log2 n - 52)%Z).
  assert (He : (1 <= e)%Z).
  { pose proof (Z.log2_le_mono _ _ Hbig) as Hl.
    rewrite (Z.log2_pow2 53) in Hl by lia; subst e; lia. }
  assert (Hp : (0 < 2 ^ e)%Z) by (apply Z.pow_pos_nonneg; lia).
  assert (Hq : (0 <= n / 2 ^ e)%Z) by (apply Z.div_pos; lia).
  match goal with
  | |- float_nonneg (if (?v <? _)%Z then _ else _) =>
      assert (Hv : (0 <= v)%Z); [|destruct (v <? 2 ^ 1024)%Z; [exact Hv|exact I]]
  end.
  destruct (_ <? _)%Z; [|destruct (_ <? _)%Z; [|destruct (Z.even _)]];
    apply Z.mul_nonneg_nonneg; lia.
Qed.

Lemma extract_number_spec tok s x :
  extract_number tok s = Some x ->
  float_nonneg x /\ Py.contains tok s = true.
Proof.
  unfold extract_number; destruct (Re.extract tok s) as [d|] eqn:He; [|discriminate].
  intros [= <-]; split.
  - apply float_of_int_nonneg, int_of_digits_nonneg.
    exact (proj2 (extract_digits _ _ _ He)).
  - eapply extract_contains; exact He.
Qed.

(** X19.  A loaded row's [movie_minutes], when present, is a non-negative
    number and its duration text holds ["min"]; its [seasons], when present,
    is a non-negative number and its duration text holds ["Season"]. *)
Theorem duration_numbers_sound :
  forall td tn has col (raw : RawRow),
    (forall x, movie_minutes (load_row td tn has col raw) = Some x ->
       float_nonneg x
       /\ Py.contains "min" (duration (load_row td tn has col raw)) = true)
    /\ (forall x, seasons (load_row td tn has col raw) = Some x ->
          float_nonneg x
          /\ Py.contains "Season" (duration (load_row td tn has col raw)) = true).
Proof.
  intros td tn has col raw; simpl; split; intros n; apply extract_number_spec.
Qed.

Lemma space_not_digit c : Py.isspace c = true -> Py.isdigit c = false.
Proof. destruct c as [[] [] [] [] [] [] [] []]; simpl; auto; discriminate. Qed.

(** A digit run, any run of white space and a text that starts with the
    token: the pattern captures the run. *)
Lemma extract_run_ws tok ds ws rest :
  ds <> "" ->
  forallb Py.isdigit (list_ascii_of_string ds) = true ->
  forallb Py.isspace (list_ascii_of_string ws) = true ->
  String.prefix tok rest = true ->
  match rest with
  | EmptyString => True
  | String c _ => Py.isspace c = false /\ Py.isdigit c = false
  end ->
  Re.extract tok (ds ++ ws ++ rest) = Some ds.
Proof.
  intros Hne Hds Hws Htok Hrest.
  rewrite extract_unfold; unfold Re.match_here.
  assert (Hhead : match ws ++ rest with
                  | EmptyString => True
                  | String c _ => Py.isdigit c = false
                  end).
  { destruct ws as [|c ws]; simpl in *.
    - destruct rest; [exact I|tauto].
    - apply andb_true_iff in Hws; apply space_not_digit; tauto. }
  destruct (star_longest_first Py.isdigit ds (ws ++ rest) Hds Hhead) as [alts ->].
  assert (Hrest' : match rest with
                   | EmptyString => True
                   | String c _ => Py.isspace c = false
                   end) by (destruct rest; tauto).
  destruct (star_longest_first Py.isspace ws rest Hws Hrest') as [alts' Hsp].
  simpl flat_map; destruct ds as [|c ds]; [congruence|].
  cbn [Py.nonempty fst snd]; rewrite Hsp.
  cbn [map app find fst snd]; rewrite Htok; reflexivity.
Qed.

Lemma prefix_app tok tail : String.prefix tok (tok ++ tail) = true.
Proof.
  induction tok as [|c tok IH]; simpl; [destruct tail; reflexivity|].
  destruct (ascii_dec c c); [exact IH|congruence].
Qed.

(** X20.  The duration patterns are searched, not matched against the
    whole text: a duration that starts with a run of digits, then any white
    space (none included), then ["min"] followed by anything gives
    [movie_minutes] the float64 of the run's value, which is that value
    itself when it is below 2^53, and likewise ["Season"] gives [seasons]. *)
Theorem duration_extraction_is_lenient :
  forall td tn has col (raw : RawRow) (ds ws tail : string),
    ds <> "" ->
    forallb Py.isdigit (list_ascii_of_string ds) = true ->
    forallb Py.isspace (list_ascii_of_string ws) = true ->
    (raw_duration raw = Some (ds ++ ws ++ "min" ++ tail) ->
       movie_minutes (load_row td tn has col raw)
         = Some (float_of_int (Py.int_of_digits ds))
       /\ ((Py.int_of_digits ds < 2 ^ 53)%Z ->
           movie_minutes (load_row td tn has col raw)
             = Some (Finite (Py.int_of_digits ds))))
    /\ (raw_duration raw = Some (ds ++ ws ++ "Season" ++ tail) ->
          seasons (load_row td tn has col raw)
            = Some (float_of_int (Py.int_of_digits ds))
          /\ ((Py.int_of_digits ds < 2 ^ 53)%Z ->
              seasons (load_row td tn has col raw)
                = Some (Finite (Py.int_of_digits ds)))).
Proof.
  intros td tn has col raw ds ws tail Hne Hds Hws; split; intros Hd.
  - change (movie_minutes (load_row td tn has col raw))
      with (extract_number "min" (fillna "" (raw_duration raw))).
    rewrite Hd; unfold fillna, extract_number.
    rewrite (extract_run_ws "min" ds ws ("min" ++ tail) Hne Hds Hws);
      [|apply (prefix_app "min")|simpl; split; reflexivity].
    split; [reflexivity|intros Hlt; simpl option_map].
    rewrite (float_of_int_exact _ Hlt); reflexivity.
  - change (seasons (load_row td tn has col raw))
      with (extract_number "Season" (fillna "" (raw_duration raw))).
    rewrite Hd; unfold fillna, extract_number.
    rewrite (extract_run_ws "Season" ds ws ("Season" ++ tail) Hne Hds Hws);
      [|apply (prefix_app "Season")|simpl; split; reflexivity].
    split; [reflexivity|intros Hlt; simpl option_map].
    rewrite (float_of_int_exact _ Hlt); reflexivity.
Qed.

(** ** More on the list columns *)

Lemma split_length sep s :
  List.length (Py.split sep s) =
  S (List.length (filter (Ascii.eqb sep) (list_ascii_of_string s))).
Proof.
  induction s as [|c r IH]; simpl; [reflexivity|].
  rewrite (Ascii.eqb_sym sep c).
  destruct (Ascii.eqb c sep); simpl; [rewrite IH; reflexivity|].
  destruct (Py.split sep r) as [|h t]; simpl in *; [discriminate|exact IH].
Qed.

Lemma lstrip_chars s c :
  In c (list_ascii_of_string (Py.lstrip s)) -> In c (list_ascii_of_string s).
Proof.
  induction s as [|a r IH]; simpl; [tauto|].
  destruct (Py.isspace a); simpl; [right; apply IH; assumption|tauto].
Qed.

Lemma rstrip_chars s c :
  In c (list_ascii_of_string (Py.rstrip s)) -> In c (list_ascii_of_string s).
Proof.
  induction s as [|a r IH]; simpl; [tauto|].
  destruct (Py.rstrip r) as [|a' r'].
  - destruct (Py.isspace a); simpl; tauto.
  - simpl in *; tauto.
Qed.

Lemma strip_chars s c :
  In c (list_ascii_of_string (Py.strip s)) -> In c (list_ascii_of_string s).
Proof. intros H; apply lstrip_chars, rstrip_chars; exact H. Qed.

Lemma stripped_pieces_spec s :
  List.length (map Py.strip (Py.split "," s)) =
    S (List.length (filter (Ascii.eqb ",") (list_ascii_of_string s)))
  /\ Forall (fun x => ~ In ","%char (list_ascii_of_string x))
            (map Py.strip (Py.split "," s)).
Proof.
  split; [rewrite length_map; apply split_length|].
  apply Forall_forall; intros x Hx; apply in_map_iff in Hx.
  destruct Hx as [y [<- Hy]]; intros Hc; apply strip_chars in Hc.
  pose proof (split_no_sep "," s) as Hall; rewrite Forall_forall in Hall.
  exact (Hall y Hy Hc).
Qed.

(** X21.  A loaded row's [country_list] has one element more than its
    country text (["Unknown"] when missing) has commas, and its [genre_list]
    one more than its genre text (empty when missing) has commas; no element
    of either list holds a comma. *)
Theorem list_columns_sizes :
  forall td tn has col (raw : RawRow),
    (List.length (country_list (load_row td tn has col raw)) =
       S (List.length (filter (Ascii.eqb ",")
            (list_ascii_of_string (fillna "Unknown" (raw_country raw)))))
     /\ Forall (fun x => ~ In ","%char (list_ascii_of_string x))
               (country_list (load_row td tn has col raw)))
    /\ (List.length (genre_list (load_row td tn has col raw)) =
          S (List.length (filter (Ascii.eqb ",")
               (list_ascii_of_string (fillna "" (raw_listed_in raw)))))
        /\ Forall (fun x => ~ In ","%char (list_ascii_of_string x))
                  (genre_list (load_row td tn has col raw))).
Proof.
  intros td tn has col raw; simpl; split; apply stripped_pieces_spec.
Qed.

(** ** People charts *)

Lemma firstn_Sorted_desc n (l : list (string * nat)) :
  Sorted (fun u v : string * nat => snd v <= snd u) l ->
  Sorted (fun u v : string * nat => snd v <= snd u) (firstn n l).
Proof.
  intros Hs; apply Sorted_StronglySorted in Hs; [|intros a b c Hab Hbc; lia].
  apply StronglySorted_Sorted; revert n.
  induction Hs as [|x t Hs IH Hall]; intros n.
  - rewrite firstn_nil; constructor.
  - destruct n as [|n]; [constructor|]; simpl; constructor; [apply IH|].
    apply Forall_forall; intros y Hy; apply firstn_In in Hy.
    rewrite Forall_forall in Hall; apply Hall; exact Hy.
Qed.

Lemma people_labels_spec col f x :
  In x (people_labels col f) -> x <> "" /\ Py.strip x = x.
Proof.
  unfold people_labels; intros Hin; apply filter_In in Hin.
  destruct Hin as [Hin Hne]; split; [intros ->; discriminate|].
  apply in_map_iff in Hin; destruct Hin as [y [<- _]]; apply strip_idem.
Qed.

(** X22.  The actors and the directors charts have at most 20 bars each,
    in non-increasing order of count and without a repeated name; every name
    is a non-empty text without white space at its ends, and its bar shows
    how often it occurs among the names counted. *)
Theorem people_counts_shape :
  forall (col : Row -> string) (f : list Row),
    List.length (people_counts col f) <= 20
    /\ Sorted (fun u v : string * nat => snd v <= snd u) (people_counts col f)
    /\ NoDup (map fst (people_counts col f))
    /\ forall k n, In (k, n) (people_counts col f) ->
         k <> "" /\ Py.strip k = k
         /\ n = occurrences k (people_labels col f) /\ 1 <= n.
Proof.
  intros col f; unfold people_counts.
  split; [apply firstn_le_length|].
  split; [apply firstn_Sorted_desc, value_counts_Sorted|].
  split; [rewrite <- firstn_map; apply firstn_NoDup, value_counts_labels_NoDup|].
  intros k n Hin; apply firstn_In, value_counts_In, tally_spec in Hin.
  destruct Hin as [Hk ->].
  destruct (people_labels_spec col f k Hk) as [Hne Hs].
  repeat split; try assumption; apply occurrences_positive; exact Hk.
Qed.

Lemma people_labels_In col f r x :
  In r f -> In x (split_pair "," " " (col r)) -> Py.strip x <> "" ->
  In (Py.strip x) (people_labels col f).
Proof.
  intros Hr Hx Hne; unfold people_labels; apply filter_In; split.
  - apply in_map, in_flat_map; exists r; split; assumption.
  - destruct (Py.strip x); [congruence|reflexivity].
Qed.

(** X23.  A row loaded without cast is counted under the name
    ["Unknown"] among the actors, and a row loaded without director under
    ["Unknown"] among the directors: wherever a table holds such a row, the
    names counted include ["Unknown"]. *)
Theorem missing_people_counted_as_unknown :
  forall td tn has col (raw : RawRow) (f : list Row),
    In (load_row td tn has col raw) f ->
    (raw_cast raw = None ->
       exists n, In ("Unknown", n) (value_counts (people_labels cast f)) /\ 1 <= n)
    /\ (raw_director raw = None ->
          exists n, In ("Unknown", n) (value_counts (people_labels director f))
                    /\ 1 <= n).
Proof.
  intros td tn has col raw f Hin; split; intros Habs.
  - assert (Hl : In "Unknown" (people_labels cast f)).
    { apply (people_labels_In cast f _ "Unknown" Hin); [|discriminate].
      simpl; rewrite Habs; left; reflexivity. }
    exists (occurrences "Unknown" (people_labels cast f)); split;
      [apply value_counts_In, tally_complete; exact Hl
      |apply occurrences_positive; exact Hl].
  - assert (Hl : In "Unknown" (people_labels director f)).
    { apply (people_labels_In director f _ "Unknown" Hin); [|discriminate].
      simpl; rewrite Habs; left; reflexivity. }
    exists (occurrences "Unknown" (people_labels director f)); split;
      [apply value_counts_In, tally_complete; exact Hl
      |apply occurrences_positive; exact Hl].
Qed.

Example split_pair_examples :
  split_pair "," " " "Ann Lee, Bo Diaz,Cy" = ["Ann Lee"; "Bo Diaz,Cy"]
  /\ split_pair "," " " "a, , b" = ["a"; ""; "b"]
  /\ split_pair "," " " ",, " = [","; ""]
  /\ split_pair "," " " "" = [""].
Proof. repeat split; reflexivity. Qed.

(** ** Trends tab *)

(** Every row of a final subset has its time-base value. *)
Lemma final_rows_have_time_base re df st f r :
  apply_filter re df st = Ok f -> In r f -> time_base df r <> None.
Proof.
  intros Hf Hin Habs.
  apply (filter_query_incl _ _ _ _ Hf) in Hin.
  rewrite filter_selections_row_ok in Hin; apply filter_In in Hin.
  destruct Hin as [_ Hok]; unfold row_ok in Hok; rewrite Habs in Hok.
  simpl in Hok; rewrite andb_false_r in Hok; discriminate.
Qed.

Lemma existsb_all_present {A : Type} (col : Row -> option A) (f : list Row) :
  f <> [] -> (forall r, In r f -> col r <> None) ->
  existsb (fun r => notna (col r)) f = true.
Proof.
  destruct f as [|r f]; [congruence|]; intros _ Hall; simpl.
  specialize (Hall r (or_introl eq_refl)); destruct (col r); [reflexivity|congruence].
Qed.

(** X24.  For a final subset of a loaded table the trend chart reports
    "no temporal data" exactly when the subset is empty; otherwise it is the
    year-added chart when the table's time base is [year_added] and the
    release-year chart under the fallback.  The heatmap is drawn exactly when
    the time base is [year_added] and the subset is not empty. *)
Theorem trend_charts_follow_time_base :
  forall (re : string -> result (string -> bool)) td tn has raws st f,
    apply_filter re (load_data td tn has raws) st = Ok f ->
    (trend_chart_of (load_data td tn has raws) f = NoTemporalData <-> f = [])
    /\ (f <> [] ->
        trend_chart_of (load_data td tn has raws) f =
        if use_year_added (load_data td tn has raws)
        then TrendYearAdded else TrendReleaseYear)
    /\ (heatmap_shown (load_data td tn has raws) f = true
        <-> use_year_added (load_data td tn has raws) = true /\ f <> []).
Proof.
  intros re td tn has raws st f Hf.
  set (df := load_data td tn has raws) in *.
  assert (Hbase : forall r, In r f -> time_base df r <> None)
    by (intros r; apply (final_rows_have_time_base re df st f r Hf)).
  assert (Hmonth : forall r, In r f -> year_added r <> None -> month_added r <> None).
  { intros r Hin; apply (filter_query_incl _ _ _ _ Hf) in Hin.
    apply filter_selections_incl_base, base_incl_df in Hin.
    unfold df, load_data in Hin; apply in_map_iff in Hin.
    destruct Hin as [raw [<- _]]; simpl.
    destruct has; [destruct (td _ _)|]; simpl; congruence. }
  unfold trend_chart_of, heatmap_shown, time_base in *.
  destruct (use_year_added df) eqn:Hu; simpl.
  - destruct f as [|r f'].
    + simpl; split; [tauto|split; [congruence|]].
      split; [discriminate|intros [_ H]; congruence].
    + rewrite (existsb_all_present year_added (r :: f')) by (auto; discriminate).
      rewrite (existsb_all_present month_added (r :: f'));
        [|discriminate|intros r' Hr'; apply Hmonth; auto].
      split; [split; discriminate|split; [reflexivity|]].
      split; [intros _; split; [reflexivity|discriminate]|reflexivity].
  - destruct f as [|r f'].
    + simpl; split; [tauto|split; [congruence|]].
      split; [discriminate|intros [H _]; discriminate].
    + rewrite (existsb_all_present release_year (r :: f')) by (auto; discriminate).
      split; [split; discriminate|split; [reflexivity|]].
      split; [discriminate|intros [H _]; discriminate].
Qed.

(** ** Further instances on the sample table *)

Lemma all_options_keep_every_row_witness :
  incl (base Sample.df (Sample.state (2019, 2021)%Z [] "")) Sample.df
  /\ filter_type (types Sample.df)
       (base Sample.df (Sample.state (2019, 2021)%Z [] ""))
     = base Sample.df (Sample.state (2019, 2021)%Z [] "").
Proof.
  assert (H : incl (base Sample.df (Sample.state (2019, 2021)%Z [] "")) Sample.df)
    by apply base_incl_df.
  split; [exact H|].
  exact (proj1 (all_options_keep_every_row Sample.df _ H)).
Defined.

Lemma final_subset_within_base_witness :
  apply_filter Sample.re_compile Sample.df (Sample.state (2019, 2021)%Z [] "crown")
  = Ok (filter (fun r => String.eqb (title r) "The Crown") Sample.df)
  /\ List.length (filter (fun r => String.eqb (title r) "The Crown") Sample.df)
     <= List.length (base Sample.df (Sample.state (2019, 2021)%Z [] "crown")).
Proof.
  assert (H : apply_filter Sample.re_compile Sample.df
                (Sample.state (2019, 2021)%Z [] "crown")
              = Ok (filter (fun r => String.eqb (title r) "The Crown") Sample.df))
    by (vm_compute; reflexivity).
  split; [exact H|].
  exact (proj2 (proj2 (final_subset_within_base _ _ _ _ H))).
Defined.

Lemma widening_keeps_rows_witness :
  exists f', apply_filter Sample.re_compile Sample.df
               (with_type_sel (Sample.state (2019, 2021)%Z ["Movie"] "")
                              ["Movie"; "TV Show"]) = Ok f'
             /\ incl (filter (fun r => String.eqb (title r) "Abc") Sample.df) f'
             /\ 1 <= List.length f'.
Proof.
  apply (widening_keeps_rows Sample.re_compile Sample.df
           (Sample.state (2019, 2021)%Z ["Movie"] "")
           (with_type_sel (Sample.state (2019, 2021)%Z ["Movie"] "")
                          ["Movie"; "TV Show"])
           (widen_type (Sample.state (2019, 2021)%Z ["Movie"] "")
                       ["Movie"; "TV Show"]
                       ltac:(discriminate)
                       ltac:(intros x [<-|[]]; left; reflexivity))
           (filter (fun r => String.eqb (title r) "Abc") Sample.df)).
  vm_compute; reflexivity.
Defined.

Lemma query_normal_form_witness :
  Py.strip (Py.lower "  CROWN ") = Py.strip (Py.lower "crown")
  /\ apply_filter Sample.re_compile Sample.df
       (with_query (Sample.state (2019, 2021)%Z [] "") "  CROWN ")
     = apply_filter Sample.re_compile Sample.df
         (with_query (Sample.state (2019, 2021)%Z [] "") "crown").
Proof.
  split; [reflexivity|].
  apply (query_normal_form Sample.re_compile Sample.df
           (Sample.state (2019, 2021)%Z [] "") "  CROWN " "crown").
  reflexivity.
Defined.

Lemma inverted_year_range_selects_nothing_witness :
  (snd (year_range (Sample.state (2021, 2019)%Z [] ""))
   < fst (year_range (Sample.state (2021, 2019)%Z [] "")))%Z
  /\ base Sample.df (Sample.state (2021, 2019)%Z [] "") = [].
Proof.
  assert (H : (snd (year_range (Sample.state (2021, 2019)%Z [] ""))
               < fst (year_range (Sample.state (2021, 2019)%Z [] "")))%Z)
    by (simpl; lia).
  split; [exact H|].
  exact (proj1 (inverted_year_range_selects_nothing Sample.re_compile Sample.df
                  (Sample.state (2021, 2019)%Z [] "") H)).
Defined.

Lemma no_year_information_witness :
  let df := Sample.load [Sample.raw "Movie" "Q" None None "unknown" None None] in
  (forall r, In r df -> year_added r = None /\ release_year r = None)
  /\ ymin df = 1950%Z /\ ymax df = 2021%Z
  /\ base df (Sample.state (1950, 2021)%Z [] "") = [].
Proof.
  cbv zeta.
  assert (H : forall r,
             In r (Sample.load [Sample.raw "Movie" "Q" None None "unknown" None None]) ->
             year_added r = None /\ release_year r = None)
    by (intros r [<-|[]]; split; reflexivity).
  split; [exact H|].
  destruct (no_year_information Sample.re_compile _
              (Sample.state (1950, 2021)%Z [] "") H) as [H1 [H2 [H3 _]]].
  split; [exact H1|split; [exact H2|exact H3]].
Defined.

Lemma country_option_selects_a_row_witness :
  In "France" (country_options Sample.df (Sample.state (2019, 2021)%Z [] ""))
  /\ exists f, apply_filter Sample.re_compile Sample.df
                 (with_country_sel (Sample.state (2019, 2021)%Z [] "") ["France"])
               = Ok f /\ f <> [].
Proof.
  assert (H : In "France"
                (country_options Sample.df (Sample.state (2019, 2021)%Z [] "")))
    by (vm_compute; tauto).
  split; [exact H|].
  exact (proj2 (proj2 (country_option_selects_a_row Sample.re_compile Sample.df
                         (Sample.state (2019, 2021)%Z [] "") "France"
                         eq_refl eq_refl eq_refl H ltac:(discriminate)))).
Defined.

Lemma genre_option_selects_a_row_witness :
  In "Dramas" (genre_options Sample.df (Sample.state (2019, 2021)%Z [] ""))
  /\ exists f, apply_filter Sample.re_compile Sample.df
                 (with_genre_sel (Sample.state (2019, 2021)%Z [] "") ["Dramas"])
               = Ok f /\ f <> [].
Proof.
  assert (H : In "Dramas"
                (genre_options Sample.df (Sample.state (2019, 2021)%Z [] "")))
    by (vm_compute; tauto).
  split; [exact H|].
  exact (proj2 (proj2 (proj2 (genre_option_selects_a_row Sample.re_compile Sample.df
                         (Sample.state (2019, 2021)%Z [] "") "Dramas"
                         eq_refl eq_refl eq_refl H)))).
Defined.

Lemma duration_extraction_is_lenient_witness :
  (Py.int_of_digits "90" < 2 ^ 53)%Z
  /\ movie_minutes
       (load_row Sample.to_datetime Sample.to_numeric true []
          (Sample.raw "Movie" "M" None None "2020" (Some "90 minutes") None))
     = Some (Finite 90).
Proof.
  split; [reflexivity|].
  exact (proj2 (proj1 (duration_extraction_is_lenient
                         Sample.to_datetime Sample.to_numeric true []
                         (Sample.raw "Movie" "M" None None "2020"
                                     (Some "90 minutes") None)
                         "90" " " "utes" ltac:(discriminate) eq_refl eq_refl)
                      eq_refl) eq_refl).
Defined.

Lemma missing_people_counted_as_unknown_witness :
  raw_cast Sample.raw1 = None
  /\ exists n, In ("Unknown", n) (value_counts (people_labels cast Sample.df))
               /\ 1 <= n.
Proof.
  split; [reflexivity|].
  apply (proj1 (missing_people_counted_as_unknown
                  Sample.to_datetime Sample.to_numeric true
                  (map date_text Sample.raws) Sample.raw1 Sample.df
                  (or_introl eq_refl))).
  reflexivity.
Defined.

Lemma trend_charts_follow_time_base_witness :
  trend_chart_of Sample.df
    (filter (fun r => String.eqb (title r) "The Crown") Sample.df)
  = TrendYearAdded.
Proof.
  assert (H : apply_filter Sample.re_compile
                (load_data Sample.to_datetime Sample.to_numeric true Sample.raws)
                (Sample.state (2019, 2021)%Z [] "crown")
              = Ok (filter (fun r => String.eqb (title r) "The Crown") Sample.df))
    by (vm_compute; reflexivity).
  apply (proj1 (proj2 (trend_charts_follow_time_base _ _ _ _ _ _ _ H))).
  vm_compute; discriminate.
Defined.

Lemma top_genre_most_frequent_witness :
  genre_entries Sample.df <> []
  /\ exists g, top_genre Sample.df = Ok g
               /\ In g (genre_entries Sample.df)
               /\ forall k, occurrences k (genre_entries Sample.df)
                            <= occurrences g (genre_entries Sample.df).
Proof.
  assert (H : genre_entries Sample.df <> []) by (vm_compute; discriminate).
  split; [exact H|exact (top_genre_most_frequent Sample.df H)].
Defined.

(** ** The float cast on sample numbers *)

Example float_of_int_examples :
  float_of_int 90 = Finite 90
  /\ float_of_int (2 ^ 53) = Finite (2 ^ 53)
  /\ float_of_int 9007199254740993 = Finite 9007199254740992
  /\ float_of_int 9007199254740995 = Finite 9007199254740996
  /\ float_of_int (2 ^ 1024 - 2 ^ 970 - 1) = Finite (2 ^ 1024 - 2 ^ 971)
  /\ float_of_int (2 ^ 1024 - 2 ^ 970) = Infinity
  /\ float_of_int (10 ^ 400) = Infinity.
Proof. repeat split; vm_compute; reflexivity. Qed.
